(** * Granulate utils: the cgroup CPU controller (v1 and v2)

    A shallow embedding of [granulate_utils/linux/cgroups/cpu_controller.py]
    together with the parts of the cgroup core it calls, and the properties
    of the CPU limit operations: reading the limit in cores, setting it by
    quota or by cores, resetting it, and the text that ends up in the
    interface files.  The peak usage of the memory controller and the
    sub-cgroups of a version 2 core, whose code is in other files, follow
    the design document and [tests/granulate_utils/test_cgroups.py].
    Further on come [get_stat], the collector of the YARN configuration
    ([config_feeder/client/yarn/collector.py]) and the YARN metrics
    ([metrics/yarn.py]), each over the environment it calls.

    Python values are modelled as follows:
    - [int] is [Z] (unbounded); the bound which recent interpreters put on
      the number of digits of [int(s)] and [str(z)] is left out;
    - [str] is [string]; only ASCII white space and ASCII digits are
      recognised by [split] and [int], other characters are ordinary ones;
    - [float] is a binary64 number, [spec_float] with precision 53 and
      maximal exponent 1024, and the operations round to nearest even;
    - an exception is a value of [exn]; a method is a function from the
      file system to an outcome and a file system;
    - the file system is a finite map from paths to the text of the files
      and a finite set of directories, as in the tests, where interface
      files are plain text files. *)

From Stdlib Require Import ZArith Ascii String List Decimal Lia Bool.
From Stdlib Require Import DecimalPos.
From Stdlib Require Import Floats.SpecFloat.
From stdpp Require Import base option list strings gmap.

Local Open Scope Z_scope.

(** ** Python primitives *)

Module Py.

(** The exceptions the modelled code can raise. *)
Inductive exn : Type :=
| FileNotFoundError (path : list string)
| ValueError
| IndexError
| ZeroDivisionError
| OverflowError
| AssertionError (msg : string)
| CgroupInterfaceNotSupported (msg : string).

Inductive result (A : Type) : Type :=
| Ok (a : A)
| Raise (e : exn).
Arguments Ok {A} a.
Arguments Raise {A} e.

Definition of_option {A} (e : exn) (o : option A) : result A :=
  match o with
  | Some a => Ok a
  | None => Raise e
  end.

(** *** Strings *)

(** [str.isspace] on the ASCII range: tab, line feed, vertical tab, form
    feed, carriage return, the four separators 28..31 and the space. *)
Definition isspace (c : ascii) : bool :=
  let n := nat_of_ascii c in
  ((9 <=? n)%nat && (n <=? 13)%nat)
  || ((28 <=? n)%nat && (n <=? 32)%nat).

Definition emit (cur : list ascii) (k : list string) : list string :=
  match cur with
  | [] => k
  | _ => string_of_list_ascii (rev cur) :: k
  end.

(** [s.split()]: the maximal runs of characters that are not white space.
    [cur] holds the current run, last character first. *)
Fixpoint split_go (cur : list ascii) (l : list ascii) : list string :=
  match l with
  | [] => emit cur []
  | c :: r =>
      if isspace c then emit cur (split_go [] r)
      else split_go (c :: cur) r
  end.

Definition split (s : string) : list string :=
  split_go [] (list_ascii_of_string s).

(** The white space which [int] drops around an ASCII literal: tab, line
    feed, vertical tab, form feed, carriage return and the space; the
    separators 28..31 are not among it. *)
Definition is_c_space (c : ascii) : bool :=
  let n := nat_of_ascii c in
  ((9 <=? n)%nat && (n <=? 13)%nat) || (n =? 32)%nat.

Fixpoint lstrip (l : list ascii) : list ascii :=
  match l with
  | c :: r => if is_c_space c then lstrip r else l
  | [] => []
  end.

Definition strip (l : list ascii) : list ascii :=
  rev (lstrip (rev (lstrip l))).

(** *** [int(str)] and [str(int)] *)

Definition digit_of (c : ascii) : option Z :=
  let n := nat_of_ascii c in
  if ((48 <=? n)%nat && (n <=? 57)%nat)%bool
  then Some (Z.of_nat n - 48) else None.

(** Decimal digits, with single underscores allowed between two digits.
    [prev] tells whether the previous character was a digit. *)
Fixpoint parse_digits_go (acc : Z) (prev : bool) (l : list ascii)
  : option Z :=
  match l with
  | [] => if prev then Some acc else None
  | c :: r =>
      match digit_of c with
      | Some d => parse_digits_go (10 * acc + d) true r
      | None =>
          if (Ascii.eqb c "_" && prev)%bool
          then parse_digits_go acc false r
          else None
      end
  end.

Definition parse_digits (l : list ascii) : option Z :=
  parse_digits_go 0 false l.

(** [int(s)] in base 10: white space around the literal is dropped, one
    sign is accepted.  [None] stands for [ValueError]. *)
Definition int_of_str (s : string) : option Z :=
  match strip (list_ascii_of_string s) with
  | "-"%char :: r => Z.opp <$> parse_digits r
  | "+"%char :: r => parse_digits r
  | l => parse_digits l
  end.

Definition int (s : string) : result Z :=
  of_option ValueError (int_of_str s).

Fixpoint uint_chars (d : Decimal.uint) : list ascii :=
  match d with
  | Nil => []
  | D0 d => "0"%char :: uint_chars d
  | D1 d => "1"%char :: uint_chars d
  | D2 d => "2"%char :: uint_chars d
  | D3 d => "3"%char :: uint_chars d
  | D4 d => "4"%char :: uint_chars d
  | D5 d => "5"%char :: uint_chars d
  | D6 d => "6"%char :: uint_chars d
  | D7 d => "7"%char :: uint_chars d
  | D8 d => "8"%char :: uint_chars d
  | D9 d => "9"%char :: uint_chars d
  end.

Definition int_chars (z : Z) : list ascii :=
  match z with
  | Z0 => ["0"%char]
  | Zpos p => uint_chars (Pos.to_uint p)
  | Zneg p => "-"%char :: uint_chars (Pos.to_uint p)
  end.

(** [str(z)]: the decimal digits without leading zero, [-] in front of a
    negative number. *)
Definition str (z : Z) : string := string_of_list_ascii (int_chars z).

(** *** Floats *)

Definition prec : Z := 53.
Definition emax : Z := 1024.

Definition float := spec_float.

(** The integer [z] as a pair of sign and magnitude, exact. *)
Definition exact_of_int (z : Z) : float :=
  match z with
  | Z0 => S754_zero false
  | Zpos m => S754_finite false m 0
  | Zneg m => S754_finite true m 0
  end.

Definition finite_or_overflow (f : float) : result float :=
  match f with
  | S754_infinity _ => Raise OverflowError
  | _ => Ok f
  end.

(** [a / b] on two [int]s: the quotient rounded once to the nearest
    float; [ZeroDivisionError] for a zero divisor, [OverflowError] when
    the quotient is out of range. *)
Definition truediv (a b : Z) : result float :=
  if b =? 0 then Raise ZeroDivisionError
  else finite_or_overflow
         (SFdiv prec emax (exact_of_int a) (exact_of_int b)).

(** [float(z)], as done by the mixed [int * float] product. *)
Definition float_of_int (z : Z) : result float :=
  finite_or_overflow (binary_normalize prec emax z 0 false).

(** [z * x] with [z] an [int] and [x] a [float]. *)
Definition mul_int_float (z : Z) (x : float) : result float :=
  match float_of_int z with
  | Ok fz => Ok (SFmul prec emax fz x)
  | Raise e => Raise e
  end.

(** The signed mantissa of a finite float. *)
Definition signed (s : bool) (m : positive) : Z :=
  if s then Zneg m else Zpos m.

(** [int(x)]: the integral part, rounding toward zero. *)
Definition int_of_float (x : float) : result Z :=
  match x with
  | S754_nan => Raise ValueError
  | S754_infinity _ => Raise OverflowError
  | S754_zero _ => Ok 0
  | S754_finite s m e =>
      Ok (if 0 <=? e then signed s m * 2 ^ e
          else Z.quot (signed s m) (2 ^ (- e)))
  end.

(** [math.floor(x)]: the largest integer that is not above [x]. *)
Definition floor (x : float) : result Z :=
  match x with
  | S754_nan => Raise ValueError
  | S754_infinity _ => Raise OverflowError
  | S754_zero _ => Ok 0
  | S754_finite s m e =>
      Ok (if 0 <=? e then signed s m * 2 ^ e
          else Z.div (signed s m) (2 ^ (- e)))
  end.

(** A decimal literal [n / 10^k] read as a float, e.g. [0.505] is
    [decimal 505 3]; rounded once, as the literal is. *)
Definition decimal (n : Z) (k : Z) : float :=
  match truediv n (10 ^ k) with
  | Ok f => f
  | Raise _ => S754_nan
  end.

(** [0.0 <= x] *)
Definition is_nonneg (x : float) : bool :=
  SFleb (S754_zero false) x.

Definition minus_one : float := S754_finite true 4503599627370496 (-52).

End Py.

(** ** The file system and the state and exception monad *)

Module Fs.

(** A path is the list of its components below [/], outermost first. *)
Definition path := list string.

(** [p / name] *)
Definition join (p : path) (name : string) : path := p ++ [name].

(** [p.parent]; the parent of [/] is [/]. *)
Definition parent (p : path) : path := removelast p.

(** [str(p)] *)
Fixpoint path_str (p : path) : string :=
  match p with
  | [] => "/"
  | [c] => "/" +:+ c
  | c :: r => "/" +:+ c +:+ path_str r
  end.

(** The text files and the directories. *)
Record t : Type := mk {
  files : gmap path string;
  dirs : gset path
}.

Definition write_text (p : path) (data : string) (σ : t) : t :=
  {| files := <[p := data]> (files σ); dirs := dirs σ |}.

Definition mkdir (p : path) (σ : t) : t :=
  {| files := files σ; dirs := {[p]} ∪ dirs σ |}.

End Fs.

(** A method: it runs on a file system and gives an outcome, a value or an
    exception, and the file system it leaves. *)
Definition M (A : Type) : Type := Fs.t → Py.result A * Fs.t.

Definition ret {A} (a : A) : M A := λ σ, (Py.Ok a, σ).
Definition raise {A} (e : Py.exn) : M A := λ σ, (Py.Raise e, σ).
Definition bind {A B} (m : M A) (k : A → M B) : M B :=
  λ σ, match m σ with
       | (Py.Ok a, σ') => k a σ'
       | (Py.Raise e, σ') => (Py.Raise e, σ')
       end.
Definition lift {A} (r : Py.result A) : M A := λ σ, (r, σ).

Global Instance M_ret : MRet M := @ret.
Global Instance M_bind : MBind M := λ A B k m, bind m k.

(** The outcome and the final file system of a run. *)
Definition outcome {A} (m : M A) (σ : Fs.t) : Py.result A := fst (m σ).
Definition final {A} (m : M A) (σ : Fs.t) : Fs.t := snd (m σ).

(** ** The cgroup core

    [cgroup.py] is not part of the sources at hand; the two I/O methods and
    the two conversions which the CPU controller calls are taken from the
    design document. *)

Module Cgroup.

Inductive CgroupCore : Type :=
| CgroupCoreV1 (cgroup_full_path : Fs.path)
| CgroupCoreV2 (cgroup_full_path : Fs.path) (root_path : Fs.path).

Definition cgroup_full_path (c : CgroupCore) : Fs.path :=
  match c with
  | CgroupCoreV1 p => p
  | CgroupCoreV2 p _ => p
  end.

Definition is_v1 (c : CgroupCore) : bool :=
  match c with
  | CgroupCoreV1 _ => true
  | CgroupCoreV2 _ _ => false
  end.

(** Modelled from the spec: [CgroupCore.read_from_interface_file], raw
    text input from [full_path/name]; a missing file is an I/O failure. *)
Definition read_from_interface_file (c : CgroupCore) (name : string)
  : M string :=
  λ σ, let p := Fs.join (cgroup_full_path c) name in
       (Py.of_option (Py.FileNotFoundError p) (Fs.files σ !! p), σ).

(** Modelled from the spec: [CgroupCore.write_to_interface_file], raw
    text output to [full_path/name], replacing the content.  The
    directory of a core exists, so that the write goes through. *)
Definition write_to_interface_file (c : CgroupCore) (name data : string)
  : M unit :=
  λ σ, (Py.Ok tt, Fs.write_text (Fs.join (cgroup_full_path c) name) data σ).

(** Modelled from the spec: [CgroupCoreV2.convert_inner_value_to_outer],
    the literal [max] becomes -1, any other text is read as an integer. *)
Definition convert_inner_value_to_outer (val : string) : Py.result Z :=
  if decide (val = "max") then Py.Ok (-1) else Py.int val.

(** Modelled from the spec: [CgroupCoreV2.convert_outer_value_to_inner],
    -1 becomes the literal [max], any other integer its decimal text. *)
Definition convert_outer_value_to_inner (val : Z) : string :=
  if val =? -1 then "max" else Py.str val.

End Cgroup.

(** ** The CPU controller: [cpu_controller.py] *)

Module Cpu.
Import Cgroup.

Record CpuLimitParams : Type := mkParams {
  period : Z;
  quota : Z
}.

(** The abstract methods of [CpuController] over the core it is bound
    to. *)
Record CpuController : Type := mkController {
  cgroup : CgroupCore;
  get_cpu_limit_period : M Z;
  get_cpu_limit_quota : M Z;
  get_cpu_limit_params : M CpuLimitParams;
  set_cpu_limit_quota : Z → M unit
}.

(** *** The methods of the base class *)

Definition set_cpu_limit_cores (c : CpuController) (cores : Py.float)
  : M unit :=
  p ← get_cpu_limit_period c;
  x ← lift (Py.mul_int_float p cores);
  q ← lift (Py.int_of_float x);
  set_cpu_limit_quota c q.

Definition get_cpu_limit_cores (c : CpuController) : M Py.float :=
  cpu_limit_params ← get_cpu_limit_params c;
  if quota cpu_limit_params =? -1 then ret Py.minus_one
  else lift (Py.truediv (quota cpu_limit_params) (period cpu_limit_params)).

Definition reset_cpu_limit (c : CpuController) : M unit :=
  set_cpu_limit_quota c (-1).

(** *** [CpuControllerV1] *)

Module V1.
Definition CPU_PERIOD_FILE : string := "cpu.cfs_period_us".
Definition CPU_QUOTA_FILE : string := "cpu.cfs_quota_us".

Definition get_cpu_limit_period (cg : CgroupCore) : M Z :=
  s ← read_from_interface_file cg CPU_PERIOD_FILE;
  lift (Py.int s).

Definition get_cpu_limit_quota (cg : CgroupCore) : M Z :=
  s ← read_from_interface_file cg CPU_QUOTA_FILE;
  lift (Py.int s).

Definition get_cpu_limit_params (cg : CgroupCore) : M CpuLimitParams :=
  p ← get_cpu_limit_period cg;
  q ← get_cpu_limit_quota cg;
  ret (mkParams p q).

Definition set_cpu_limit_quota (cg : CgroupCore) (quota : Z) : M unit :=
  write_to_interface_file cg CPU_QUOTA_FILE (Py.str quota).
End V1.

Definition CpuControllerV1 (cg : CgroupCore) : CpuController :=
  {| cgroup := cg;
     get_cpu_limit_period := V1.get_cpu_limit_period cg;
     get_cpu_limit_quota := V1.get_cpu_limit_quota cg;
     get_cpu_limit_params := V1.get_cpu_limit_params cg;
     set_cpu_limit_quota := V1.set_cpu_limit_quota cg |}.

(** *** [CpuControllerV2] *)

Module V2.
Definition CPU_LIMIT_FILE : string := "cpu.max".

(** [cpu_limit[i]] *)
Definition item (l : list string) (i : nat) : Py.result string :=
  Py.of_option Py.IndexError (l !! i).

Definition get_cpu_limit_params (cg : CgroupCore) : M CpuLimitParams :=
  s ← read_from_interface_file cg CPU_LIMIT_FILE;
  let cpu_limit := Py.split s in
  f1 ← lift (item cpu_limit 1);
  p ← lift (Py.int f1);
  f0 ← lift (item cpu_limit 0);
  q ← lift (convert_inner_value_to_outer f0);
  ret (mkParams p q).

Definition get_cpu_limit_period (cg : CgroupCore) : M Z :=
  ps ← get_cpu_limit_params cg; ret (period ps).

Definition get_cpu_limit_quota (cg : CgroupCore) : M Z :=
  ps ← get_cpu_limit_params cg; ret (quota ps).

Definition set_cpu_limit_quota (cg : CgroupCore) (quota : Z) : M unit :=
  period ← get_cpu_limit_period cg;
  let quota_str := convert_outer_value_to_inner quota in
  write_to_interface_file cg CPU_LIMIT_FILE
    (quota_str +:+ " " +:+ Py.str period).
End V2.

Definition CpuControllerV2 (cg : CgroupCore) : CpuController :=
  {| cgroup := cg;
     get_cpu_limit_period := V2.get_cpu_limit_period cg;
     get_cpu_limit_quota := V2.get_cpu_limit_quota cg;
     get_cpu_limit_params := V2.get_cpu_limit_params cg;
     set_cpu_limit_quota := V2.set_cpu_limit_quota cg |}.

(** The interface file which holds the quota, and the text of the quota
    in it: the whole file in version 1, the first field in version 2. *)
Definition quota_file (cg : CgroupCore) : Fs.path :=
  Fs.join (cgroup_full_path cg)
    (if is_v1 cg then V1.CPU_QUOTA_FILE else V2.CPU_LIMIT_FILE).

Definition quota_field (cg : CgroupCore) (σ : Fs.t) : option string :=
  s ← Fs.files σ !! quota_file cg;
  if is_v1 cg then Some s else head (Py.split s).

(** [CpuControllerFactory.get_cpu_controller] *)
Definition get_cpu_controller (cgroup_core : CgroupCore) : CpuController :=
  if is_v1 cgroup_core then CpuControllerV1 cgroup_core
  else CpuControllerV2 cgroup_core.

End Cpu.

(** ** The memory controller, peak usage only *)

Module Memory.
Import Cgroup.

Definition MAX_USAGE_FILE : string := "memory.max_usage_in_bytes".

Definition NOT_SUPPORTED_V2 : string :=
  "Interface file max_usage_in_bytes is not supported in cGroup v2".

(** Modelled from the spec: [MemoryControllerV1.get_max_usage_in_bytes]
    ([memory_controller.py] is missing), the content of
    [memory.max_usage_in_bytes] as an integer. *)
Definition get_max_usage_in_bytes_v1 (cg : CgroupCore) : M Z :=
  s ← read_from_interface_file cg MAX_USAGE_FILE;
  lift (Py.int s).

(** Modelled from the spec: [MemoryControllerV2.get_max_usage_in_bytes]
    ([memory_controller.py] is missing); version 2 has no such file and
    the call fails with the unsupported-interface condition.  The message
    is the one [test_memory_controller_v2] expects. *)
Definition get_max_usage_in_bytes_v2 (cg : CgroupCore) : M Z :=
  raise (Py.CgroupInterfaceNotSupported NOT_SUPPORTED_V2).

(** The method of the controller which
    [MemoryControllerFactory.get_memory_controller] selects. *)
Definition get_max_usage_in_bytes (cg : CgroupCore) : M Z :=
  if is_v1 cg then get_max_usage_in_bytes_v1 cg
  else get_max_usage_in_bytes_v2 cg.

End Memory.

(** ** Sub-cgroups of a version 2 core *)

Module Subcgroup.
Import Cgroup.

Inductive ControllerType : Type := memory | cpu | cpuacct.

Definition controller_name (c : ControllerType) : string :=
  match c with
  | memory => "memory"
  | cpu => "cpu"
  | cpuacct => "cpuacct"
  end.

Definition CONTROLLERS_FILE : string := "cgroup.controllers".
Definition SUBTREE_CONTROL_FILE : string := "cgroup.subtree_control".

Definition read_text (p : Fs.path) : M string :=
  λ σ, (Py.of_option (Py.FileNotFoundError p) (Fs.files σ !! p), σ).

Definition write_text (p : Fs.path) (data : string) : M unit :=
  λ σ, (Py.Ok tt, Fs.write_text p data σ).

Definition mkdir (p : Fs.path) : M unit :=
  λ σ, (Py.Ok tt, Fs.mkdir p σ).

(** Whether the text of an interface file names the controller. *)
Definition names (c : ControllerType) (text : string) : bool :=
  bool_decide (controller_name c ∈ Py.split text).

Definition is_controller_supported (d : Fs.path) (c : ControllerType)
  : M bool :=
  s ← read_text (Fs.join d CONTROLLERS_FILE);
  ret (names c s).

Definition not_supported_msg (c : ControllerType) (root : Fs.path)
  : string :=
  "Controller '" +:+ controller_name c +:+ "' is not supported under "
  +:+ Fs.path_str root.

(** The nearest directory, from [cur] upwards to [root] included, whose
    [cgroup.controllers] names the controller.  [fuel] bounds the steps
    by the depth of [cur]; with none left [cur] is [/]. *)
Fixpoint find_supported (root : Fs.path) (c : ControllerType)
    (fuel : nat) (cur : Fs.path) : M Fs.path :=
  ok ← is_controller_supported cur c;
  if ok : bool then ret cur
  else if decide (cur = root)
       then raise (Py.AssertionError (not_supported_msg c root))
       else match fuel with
            | O => raise (Py.AssertionError (not_supported_msg c root))
            | S n => find_supported root c n (Fs.parent cur)
            end.

(** The directories strictly below [root] on the way down to
    [root ++ rel], nearest to the root first. *)
Fixpoint below (root : Fs.path) (rel : list string) : list Fs.path :=
  match rel with
  | [] => []
  | x :: r => Fs.join root x :: below (Fs.join root x) r
  end.

(** [d] has a [cgroup.controllers] file, which does not name [c]. *)
Definition unsupported (σ : Fs.t) (c : ControllerType) (d : Fs.path)
  : Prop :=
  ∃ s, Fs.files σ !! Fs.join d CONTROLLERS_FILE = Some s
       ∧ names c s = false.

(** Delegation at [d]: [+controller] is appended to
    [cgroup.subtree_control] unless the controller is there already. *)
Definition delegate (d : Fs.path) (c : ControllerType) : M unit :=
  s ← read_text (Fs.join d SUBTREE_CONTROL_FILE);
  if names c s then ret tt
  else write_text (Fs.join d SUBTREE_CONTROL_FILE)
         (s +:+ "+" +:+ controller_name c).

(** Where the walk starts: at the parent of the core, and at the core
    itself when it is the mount root, above which the walk never goes. *)
Definition walk_start (cgroup_full_path root_path : Fs.path) : Fs.path :=
  if decide (cgroup_full_path = root_path) then root_path
  else Fs.parent cgroup_full_path.

(** Modelled from the spec: [CgroupCoreV2.get_subcgroup] ([cgroup.py] is
    missing).  The walk towards the mount root, which it takes in and
    does not leave, the delegation and the failure follow section 4.1 of
    the design document.  Two points follow [test_cgroup_v2] and
    [test_cgroup_v2_fallback_to_root] instead, which run the method: the
    core of both tests is a leaf directory without a [cgroup.controllers]
    file, so the walk of a core below the root starts at its parent; and
    both tests find the new directory directly under the ancestor that
    delegates, which the returned core points to. *)
Definition get_subcgroup (cgroup_full_path root_path : Fs.path)
    (controller : ControllerType) (new_cgroup_name : string)
  : M CgroupCore :=
  let start := walk_start cgroup_full_path root_path in
  d ← find_supported root_path controller (length start) start;
  delegate d controller;;
  mkdir (Fs.join d new_cgroup_name);;
  ret (CgroupCoreV2 (Fs.join d new_cgroup_name) root_path).

End Subcgroup.

(** ** Scenarios of [tests/granulate_utils/test_cgroups.py] *)

Module Scenario.
Import Cgroup Cpu.

Definition dir : Fs.path := ["tmp"; "cpu_controller"]%string.

Definition fs_v1 : Fs.t :=
  {| Fs.files := {[ Fs.join dir "cpu.cfs_period_us" := "100"%string;
                    Fs.join dir "cpu.cfs_quota_us" := "50"%string ]};
     Fs.dirs := {[ dir ]} |}.

Definition fs_v2 : Fs.t :=
  {| Fs.files := {[ Fs.join dir "cpu.max" := "50 100"%string ]};
     Fs.dirs := {[ dir ]} |}.

(** A version 1 cgroup whose period reads 0. *)
Definition fs_v1_zero : Fs.t :=
  {| Fs.files := {[ Fs.join dir "cpu.cfs_period_us" := "0"%string;
                    Fs.join dir "cpu.cfs_quota_us" := "50"%string ]};
     Fs.dirs := {[ dir ]} |}.

Definition cpu_v1 := get_cpu_controller (CgroupCoreV1 dir).
Definition cpu_v2 := get_cpu_controller (CgroupCoreV2 dir dir).

Definition half : Py.float := Py.decimal 5 1.
Definition three_and_half : Py.float := Py.decimal 35 1.

(** The tree of [test_cgroup_v2] and [test_cgroup_v2_fallback_to_root]:
    [root/base_controller/leaf]. *)
Definition root_cgroup : Fs.path := ["tmp"; "root"]%string.
Definition parent_cgroup : Fs.path := Fs.join root_cgroup "base_controller".
Definition current_leaf : Fs.path := Fs.join parent_cgroup "leaf".
Definition SUB_CGROUP_NAME : string := "sub_cgroup".

Definition tree (root_controllers parent_controllers : string) : Fs.t :=
  {| Fs.files :=
       {[ Fs.join root_cgroup "cgroup.controllers" := root_controllers;
          Fs.join root_cgroup "cgroup.subtree_control" := ""%string;
          Fs.join parent_cgroup "cgroup.controllers" := parent_controllers;
          Fs.join parent_cgroup "cgroup.subtree_control" := ""%string ]};
     Fs.dirs := {[ root_cgroup; parent_cgroup; current_leaf ]} |}.

(** [test_cgroup_v2]: the parent supports [cpu], the root nothing. *)
Definition fs_parent : Fs.t := tree "" "cpu".
(** [test_cgroup_v2_fallback_to_root]: only the root supports [cpu]. *)
Definition fs_fallback : Fs.t := tree "cpu" "".

End Scenario.

(** ** [CpuController.get_stat] and sequences of limit operations *)

Module CpuStat.
Import Cgroup Cpu.

(** The ASCII line boundaries of [str.splitlines]: line feed, vertical
    tab, form feed, carriage return and the separators 28..30. *)
Definition is_linebreak (c : ascii) : bool :=
  let n := nat_of_ascii c in
  ((10 <=? n)%nat && (n <=? 13)%nat) || ((28 <=? n)%nat && (n <=? 30)%nat).

(** [s.splitlines()]: the lines without their terminators; a carriage
    return followed by a line feed is one terminator, and there is no empty
    last line after a final terminator.  [cur] is the current line, last
    character first. *)
Fixpoint splitlines_go (cur : list ascii) (l : list ascii) : list string :=
  match l with
  | [] => Py.emit cur []
  | c :: r =>
      if is_linebreak c then
        string_of_list_ascii (rev cur)
        :: (if Ascii.eqb c "013"
            then match r with
                 | c' :: r' =>
                     if Ascii.eqb c' "010" then splitlines_go [] r'
                     else splitlines_go [] r
                 | [] => splitlines_go [] r
                 end
            else splitlines_go [] r)
      else splitlines_go (c :: cur) r
  end.

Definition splitlines (s : string) : list string :=
  splitlines_go [] (list_ascii_of_string s).

(** [l[i]] *)
Definition item (l : list string) (i : nat) : Py.result string :=
  Py.of_option Py.IndexError (l !! i).

(** One step of the comprehension: the key [line.split()[0]] first, then
    the value [int(line.split()[1])]. *)
Definition stat_entry (line : string) : Py.result (string * Z) :=
  match item (Py.split line) 0 with
  | Py.Raise e => Py.Raise e
  | Py.Ok k =>
      match item (Py.split line) 1 with
      | Py.Raise e => Py.Raise e
      | Py.Ok f1 =>
          match Py.int f1 with
          | Py.Raise e => Py.Raise e
          | Py.Ok v => Py.Ok (k, v)
          end
      end
  end.

(** The dict comprehension over the lines, [d] the dict so far: a key
    that comes again replaces the earlier entry. *)
Fixpoint stat_dict (lines : list string) (d : gmap string Z)
  : Py.result (gmap string Z) :=
  match lines with
  | [] => Py.Ok d
  | line :: rest =>
      match stat_entry line with
      | Py.Raise e => Py.Raise e
      | Py.Ok (k, v) => stat_dict rest (<[k := v]> d)
      end
  end.

(** [CPU_STAT_FILE], the same in both controllers. *)
Definition CPU_STAT_FILE : string := "cpu.stat".

Definition get_stat (c : CpuController) : M (gmap string Z) :=
  stat_text ← read_from_interface_file (cgroup c) CPU_STAT_FILE;
  lift (stat_dict (splitlines stat_text) ∅).

(** The text of [cpu.stat] for a list of entries, one line each. *)
Definition stat_line (kv : string * Z) : string :=
  kv.1 +:+ " " +:+ Py.str kv.2.

Fixpoint stat_text (kvs : list (string * Z)) : string :=
  match kvs with
  | [] => ""
  | kv :: rest => stat_line kv +:+ String "010" (stat_text rest)
  end.

(** A word: a text which is not empty and has no white space. *)
Definition word (s : string) : Prop :=
  s ≠ ""%string ∧ Forall (λ c, Py.isspace c = false) (list_ascii_of_string s).

(** A line [get_stat] can take in: two fields at least, the second an
    integer. *)
Definition stat_line_ok (line : string) : Prop :=
  ∃ k f1 rest v, Py.split line = k :: f1 :: rest ∧ Py.int f1 = Py.Ok v.

(** The operations which change the limit. *)
Inductive limit_op : Type :=
| SetQuota (quota : Z)
| SetCores (cores : Py.float)
| Reset.

Definition run_op (c : CpuController) (o : limit_op) : M unit :=
  match o with
  | SetQuota q => set_cpu_limit_quota c q
  | SetCores x => set_cpu_limit_cores c x
  | Reset => reset_cpu_limit c
  end.

(** The operations one after the other, up to the first which raises. *)
Fixpoint run_ops (c : CpuController) (os : list limit_op) : M unit :=
  match os with
  | [] => ret tt
  | o :: rest => run_op c o;; run_ops c rest
  end.

(** The quota which an operation asks for when the period is [p]. *)
Definition asked (p : Z) (o : limit_op) : Py.result Z :=
  match o with
  | SetQuota q => Py.Ok q
  | SetCores x =>
      match Py.mul_int_float p x with
      | Py.Ok y => Py.int_of_float y
      | Py.Raise e => Py.Raise e
      end
  | Reset => Py.Ok (-1)
  end.

(** The quota after a sequence of operations on period [p] and quota
    [q], or the first exception. *)
Fixpoint asked_last (p q : Z) (os : list limit_op) : Py.result Z :=
  match os with
  | [] => Py.Ok q
  | o :: rest =>
      match asked p o with
      | Py.Ok q' => asked_last p q' rest
      | Py.Raise e => Py.Raise e
      end
  end.

(** The files of the cgroup hold the period [p] and the quota [q] in the
    text which the controller of its version writes. *)
Definition holds (cg : CgroupCore) (σ : Fs.t) (p q : Z) : Prop :=
  if is_v1 cg
  then Fs.files σ !! Fs.join (cgroup_full_path cg) V1.CPU_PERIOD_FILE
       = Some (Py.str p)
       ∧ Fs.files σ !! Fs.join (cgroup_full_path cg) V1.CPU_QUOTA_FILE
         = Some (Py.str q)
  else Fs.files σ !! Fs.join (cgroup_full_path cg) V2.CPU_LIMIT_FILE
       = Some (convert_outer_value_to_inner q +:+ " " +:+ Py.str p).

(** The file system with a line feed at the end of every file, as a
    kernel prints its interface files. *)
Definition with_newlines (σ : Fs.t) : Fs.t :=
  {| Fs.files := (λ s, s +:+ String "010" "") <$> Fs.files σ;
     Fs.dirs := Fs.dirs σ |}.

End CpuStat.

(** ** The collector of the YARN configuration:
    [config_feeder/client/yarn/collector.py]

    The coroutines are run one at a time, so that awaiting is sequencing.
    What the collector calls outside of its file is an environment: the
    HTTP session, [detect_resource_manager_address], [get_yarn_properties]
    and the two addresses. *)

Module YarnConfigCollector.

Inductive exn : Type :=
| ConnectionError
| MaximumRetriesExceeded (msg : string) (max_retries : Z)
| OtherException (name : string).

Inductive outcome (A : Type) : Type :=
| Return (a : A)
| Raised (e : exn).
Arguments Return {A} a.
Arguments Raised {A} e.

Inductive level : Type := DEBUG | WARNING | ERROR.

(** What a run does to the outside, in order: the records it logs and the
    calls to the network. *)
Inductive event : Type :=
| Log (lvl : level) (msg : string)
| Request (url : string)
| Detect.

(** The environment.  [Dict] are the values which [resp.json()] gives,
    [truthy] their truth value ([bool(config)], false for an empty dict).
    [request] is [session.request] with [raise_for_status] and [json]:
    it gives a value, raises [ConnectionError] or raises something else;
    it and [detect_resource_manager_address] depend on a state of the
    world, which they may change. *)
Class Env : Type := {
  Dict : Type;
  truthy : Dict → bool;
  World : Type;
  request : string → World → outcome Dict * World;
  detect_resource_manager_address : World → outcome (option string) * World;
  get_yarn_properties : Dict → outcome Dict;
  RM_DEFAULT_ADDRESS : string;
  WORKER_ADDRESS : string
}.

(** The fields of a [YarnConfigCollector]. *)
Record collector : Type := mkCollector {
  resource_manager_address : string;
  is_address_detected : bool;
  max_retries : Z;
  failed_connections : Z
}.

Record YarnConfig `{Env} : Type := mkYarnConfig { config : Dict }.

Record state `{Env} : Type := mkState {
  self : collector;
  world : World;
  trace : list event
}.

(** A coroutine of the collector. *)
Definition C `{Env} (A : Type) : Type := state → outcome A * state.

Definition c_ret `{Env} {A} (a : A) : C A := λ st, (Return a, st).
Definition c_raise `{Env} {A} (e : exn) : C A := λ st, (Raised e, st).
Definition c_bind `{Env} {A B} (m : C A) (k : A → C B) : C B :=
  λ st, match m st with
        | (Return a, st') => k a st'
        | (Raised e, st') => (Raised e, st')
        end.

Global Instance C_ret `{Env} : MRet C := @c_ret _.
Global Instance C_bind `{Env} : MBind C := λ A B k m, c_bind m k.

(** [try: m  except ConnectionError: handler] *)
Definition try_except `{Env} {A} (m handler : C A) : C A :=
  λ st, match m st with
        | (Raised ConnectionError, st') => handler st'
        | r => r
        end.

Definition emit `{Env} (e : event) : C unit :=
  λ st, (Return tt,
         {| self := self st; world := world st; trace := trace st ++ [e] |}).

Definition log `{Env} (lvl : level) (msg : string) : C unit :=
  emit (Log lvl msg).

Definition get_self `{Env} : C collector := λ st, (Return (self st), st).

Definition set_self `{Env} (c : collector) : C unit :=
  λ st, (Return tt, {| self := c; world := world st; trace := trace st |}).

(** [self._failed_connections += 1] *)
Definition count_failure `{Env} : C unit :=
  c ← get_self;
  set_self {| resource_manager_address := resource_manager_address c;
              is_address_detected := is_address_detected c;
              max_retries := max_retries c;
              failed_connections := failed_connections c + 1 |}.

Definition call_request `{Env} (url : string) : C Dict :=
  λ st, let '(r, w) := request url (world st) in
        (r, {| self := self st; world := w;
               trace := trace st ++ [Request url] |}).

Definition call_detect `{Env} : C (option string) :=
  λ st, let '(r, w) := detect_resource_manager_address (world st) in
        (r, {| self := self st; world := w; trace := trace st ++ [Detect] |}).

Definition lift_outcome `{Env} {A} (r : outcome A) : C A := λ st, (r, st).

(** The URL which [_fetch] asks for. *)
Definition fetch_url (url : string) : string :=
  if String.prefix "http" url then url else "http://" +:+ url.

Definition _fetch `{Env} (url : string) : C Dict :=
  let url := fetch_url url in
  log DEBUG ("fetching " +:+ url);;
  call_request url.

(** [get_yarn_properties(config) if config else None] *)
Definition properties_if_any `{Env} (config : option Dict)
  : C (option Dict) :=
  match config with
  | Some d =>
      if truthy d then d' ← lift_outcome (get_yarn_properties d); mret (Some d')
      else mret None
  | None => mret None
  end.

Definition _get_master_config `{Env} : C (option Dict) :=
  c ← get_self;
  config ← try_except
    (d ← _fetch (resource_manager_address c +:+ "/conf"); mret (Some (Some d)))
    (count_failure;;
     c ← get_self;
     if is_address_detected c then
       log ERROR ("could not connect to " +:+ resource_manager_address c);;
       mret None
     else
       log WARNING ("ResourceManager not found at "
                    +:+ resource_manager_address c);;
       address ← call_detect;
       match address with
       | Some (String a0 a as address) =>
           set_self {| resource_manager_address := address;
                       is_address_detected := true;
                       max_retries := max_retries c;
                       failed_connections := failed_connections c |};;
           log DEBUG ("found ResourceManager address: " +:+ address);;
           d ← _fetch (address +:+ "/conf");
           mret (Some (Some d))
       | _ =>
           log ERROR "could not resolve ResourceManager address";;
           mret (Some None)
       end);
  match config with
  | None => mret None
  | Some config => properties_if_any config
  end.

Definition _get_worker_config `{Env} : C (option Dict) :=
  try_except
    (d ← _fetch (WORKER_ADDRESS +:+ "/conf");
     d' ← lift_outcome (get_yarn_properties d);
     mret (Some d'))
    (count_failure;;
     log WARNING ("failed to connect to " +:+ WORKER_ADDRESS);;
     mret None).

Definition collect `{Env} (is_master : bool) : C (option YarnConfig) :=
  c ← get_self;
  if failed_connections c >=? max_retries c then
    c_raise (MaximumRetriesExceeded
               "maximum number of failed connections reached" (max_retries c))
  else
    config ← (if is_master then _get_master_config else _get_worker_config);
    match config with
    | Some d =>
        if truthy d then
          c ← get_self;
          set_self {| resource_manager_address := resource_manager_address c;
                      is_address_detected := is_address_detected c;
                      max_retries := max_retries c;
                      failed_connections := 0 |};;
          mret (Some (mkYarnConfig _ d))
        else log ERROR "failed to collect node config";; mret None
    | None => log ERROR "failed to collect node config";; mret None
    end.

(** [YarnConfigCollector(max_retries=n)] *)
Definition init `{Env} (max_retries : Z) : collector :=
  {| resource_manager_address := RM_DEFAULT_ADDRESS;
     is_address_detected := false;
     max_retries := max_retries;
     failed_connections := 0 |}.

(** A caller which collects for one node after the other and keeps the
    outcome of each call, exceptions included. *)
Fixpoint collect_each `{Env} (nodes : list bool) (st : state)
  : list (outcome (option YarnConfig)) * state :=
  match nodes with
  | [] => ([], st)
  | is_master :: rest =>
      let '(r, st') := collect is_master st in
      let '(rs, st'') := collect_each rest st' in
      (r :: rs, st'')
  end.

(** The exception of a collector which has used up its retries. *)
Definition retries_exceeded (c : collector) : exn :=
  MaximumRetriesExceeded "maximum number of failed connections reached"
    (max_retries c).

(** What one [collect] may do to the fields: the maximum stays, the count
    of failures is reset, kept or one more, and an address which was
    detected stays detected and is kept. *)
Definition step_ok (c c' : collector) : Prop :=
  max_retries c' = max_retries c
  ∧ (failed_connections c' = 0
     ∨ failed_connections c' = failed_connections c
     ∨ failed_connections c' = failed_connections c + 1)
  ∧ (is_address_detected c = true →
     is_address_detected c' = true
     ∧ resource_manager_address c' = resource_manager_address c).

(** The network is down: every request raises [ConnectionError]. *)
Definition network_down `{Env} : Prop :=
  ∀ url w, fst (request url w) = Raised ConnectionError.

(** No call returned a configuration. *)
Definition no_config `{Env} (r : outcome (option YarnConfig)) : Prop :=
  ∀ cfg, r ≠ Return (Some cfg).

End YarnConfigCollector.

(** ** The YARN metrics: [metrics/yarn.py]

    [json_request] and [set_metrics_from_json] are in another file and
    make the environment.  Every exception here is an [Exception], which
    the two [try] blocks catch. *)

Module YarnMetrics.

#[local] Set Warnings "-register-all".

(** The values of [json.loads]. *)
Inductive json : Type :=
| JNull
| JBool (b : bool)
| JInt (n : Z)
| JFloat (x : Py.float)
| JStr (s : string)
| JList (l : list json)
| JDict (d : gmap string json).

Inductive exn : Type :=
| AttributeError
| KeyError (key : string)
| TypeError
| OtherError (name : string).

Inductive outcome (A : Type) : Type :=
| Return (a : A)
| Raised (e : exn).
Arguments Return {A} a.
Arguments Raised {A} e.

Global Instance outcome_ret : MRet outcome := @Return.
Global Instance outcome_bind : MBind outcome :=
  λ A B k r, match r with Return a => k a | Raised e => Raised e end.

(** [v.get(key, fallback)]: only a dict has the method. *)
Definition get (v : json) (key : string) (fallback : json) : outcome json :=
  match v with
  | JDict d => Return (default fallback (d !! key))
  | _ => Raised AttributeError
  end.

(** [v[key]] with a string key. *)
Definition getitem (v : json) (key : string) : outcome json :=
  match v with
  | JDict d =>
      match d !! key with
      | Some x => Return x
      | None => Raised (KeyError key)
      end
  | _ => Raised TypeError
  end.

(** [for metric, value in v.items(): node[metric] = value] on the dict
    [node]: the entries of [v] are put into [node] one by one. *)
Definition update_from (node : gmap string json) (v : json)
  : outcome (gmap string json) :=
  match v with
  | JDict ru => Return (map_fold (λ k x n, <[k := x]> n) node ru)
  | _ => Raised AttributeError
  end.

(** The elements which [for x in v] goes through. *)
Definition iterate (v : json) : outcome (list json) :=
  match v with
  | JList l => Return l
  | JDict d => Return (JStr <$> (map_to_list d).*1)
  | JStr s => Return ((λ c, JStr (String c "")) <$> list_ascii_of_string s)
  | _ => Raised TypeError
  end.

(** [bool(v)] *)
Definition json_truthy (v : json) : bool :=
  match v with
  | JNull => false
  | JBool b => b
  | JInt n => negb (n =? 0)
  | JFloat x => negb (SFeqb x (S754_zero false))
  | JStr s => negb (bool_decide (s = ""%string))
  | JList l => negb (bool_decide (l = []))
  | JDict d => negb (bool_decide (d = ∅))
  end.

Definition table (prefix : string) (fields : list string)
  : gmap string string :=
  list_to_map ((λ metric, (metric, prefix +:+ metric)) <$> rev fields).

Definition YARN_CLUSTER_METRICS : gmap string string :=
  table "yarn_cluster_"
    [ "appsSubmitted"; "appsCompleted"; "appsPending"; "appsRunning";
      "appsFailed"; "appsKilled"; "totalMB"; "availableMB"; "allocatedMB";
      "availableVirtualCores"; "allocatedVirtualCores"; "totalNodes";
      "activeNodes"; "lostNodes"; "decommissioningNodes";
      "decommissionedNodes"; "rebootedNodes"; "shutdownNodes";
      "unhealthyNodes"; "containersAllocated"; "containersPending" ]%string.

Definition YARN_NODES_METRICS : gmap string string :=
  table "yarn_node_"
    [ "numContainers"; "usedMemoryMB"; "availMemoryMB"; "usedVirtualCores";
      "availableVirtualCores"; "nodePhysicalMemoryMB"; "nodeVirtualMemoryMB";
      "nodeCPUUsage"; "containersCPUUsage";
      "aggregatedContainersPhysicalMemoryMB";
      "aggregatedContainersVirtualMemoryMB" ]%string.

(** The metrics collected so far, [Dict[str, Dict[str, Any]]], in the
    order in which the keys came in. *)
Definition collected := list (string * json).

(** The environment: [json_request url kwargs] gives the decoded body or
    raises; [set_metrics_from_json collected labels metrics_json metrics]
    changes [collected] and may raise. *)
Class Env : Type := {
  json_request : string → list (string * string) → outcome json;
  set_metrics_from_json :
    collected → gmap string json → json → gmap string string →
    outcome unit * collected
}.

Record ResourceManagerAPI : Type := mkApi {
  _apps_url : string;
  _metrics_url : string;
  _nodes_url : string
}.

Definition new_api (rm_address : string) : ResourceManagerAPI :=
  {| _apps_url := rm_address +:+ "/ws/v1/cluster/apps";
     _metrics_url := rm_address +:+ "/ws/v1/cluster/metrics";
     _nodes_url := rm_address +:+ "/ws/v1/cluster/nodes" |}.

Definition apps `{Env} (rm : ResourceManagerAPI)
    (kwargs : list (string * string)) : outcome json :=
  r ← json_request (_apps_url rm) kwargs;
  a ← get r "apps" (JDict ∅);
  get a "app" (JList []).

Definition metrics `{Env} (rm : ResourceManagerAPI)
    (kwargs : list (string * string)) : outcome json :=
  r ← json_request (_metrics_url rm) kwargs;
  get r "clusterMetrics" JNull.

Definition nodes `{Env} (rm : ResourceManagerAPI)
    (kwargs : list (string * string)) : outcome json :=
  r ← json_request (_nodes_url rm) kwargs;
  a ← get r "nodes" (JDict ∅);
  get a "node" (JList []).

(** The state of a run of the collector: the metrics and the messages
    given to [logger.exception]. *)
Definition run_state : Type := collected * list string.

(** The body of the loop of [_nodes_metrics] for one node; the exception
    it may raise ends the loop. *)
Definition node_step `{Env} (cm : collected) (node : json)
  : outcome unit * collected :=
  match get node "resourceUtilization" (JDict ∅) with
  | Raised e => (Raised e, cm)
  | Return ru =>
      match node with
      | JDict d =>
          match update_from d ru with
          | Raised e => (Raised e, cm)
          | Return d' =>
              match getitem (JDict d') "nodeHostName" with
              | Raised e => (Raised e, cm)
              | Return h =>
                  set_metrics_from_json cm {["node_hostname" := h]}
                    (JDict d') YARN_NODES_METRICS
              end
          end
      | _ => (Raised AttributeError, cm)
      end
  end.

Fixpoint node_loop `{Env} (cm : collected) (l : list json)
  : outcome unit * collected :=
  match l with
  | [] => (Return tt, cm)
  | node :: rest =>
      match node_step cm node with
      | (Return _, cm') => node_loop cm' rest
      | (Raised e, cm') => (Raised e, cm')
      end
  end.

(** [except Exception: logger.exception(msg)] around a block. *)
Definition logged (msg : string) (r : outcome unit * collected)
    (log : list string) : run_state :=
  match r with
  | (Return _, cm) => (cm, log)
  | (Raised _, cm) => (cm, log ++ [msg])
  end.

Definition _cluster_metrics `{Env} (rm : ResourceManagerAPI)
    (st : run_state) : run_state :=
  logged "Could not gather yarn cluster metrics"
    (match metrics rm [] with
     | Raised e => (Raised e, st.1)
     | Return cluster_metrics =>
         if json_truthy cluster_metrics
         then set_metrics_from_json st.1 ∅ cluster_metrics
                YARN_CLUSTER_METRICS
         else (Return tt, st.1)
     end) st.2.

Definition _nodes_metrics `{Env} (rm : ResourceManagerAPI)
    (st : run_state) : run_state :=
  logged "Could not gather yarn nodes metrics"
    (match nodes rm [("states", "RUNNING")]%string with
     | Raised e => (Raised e, st.1)
     | Return ns =>
         match iterate ns with
         | Raised e => (Raised e, st.1)
         | Return l => node_loop st.1 l
         end
     end) st.2.

(** [YarnCollector.collect]: what the generator yields, and the log. *)
Definition collect `{Env} (rm_address : string) : list json * list string :=
  let rm := new_api rm_address in
  let st := _nodes_metrics rm (_cluster_metrics rm ([], [])) in
  (st.1.*2, st.2).

(** A node which the loop takes in: a dict whose [resourceUtilization],
    if any, is a dict, and which with its entries put in has a
    [nodeHostName]; [set_metrics_from_json] takes [cm] to [cm'] on it. *)
Definition node_taken `{Env} (cm : collected) (node : json)
    (cm' : collected) : Prop :=
  ∃ d ru h,
    node = JDict d
    ∧ default (JDict ∅) (d !! "resourceUtilization"%string) = JDict ru
    ∧ (ru ∪ d) !! "nodeHostName"%string = Some h
    ∧ set_metrics_from_json cm {["node_hostname"%string := h]}
        (JDict (ru ∪ d)) YARN_NODES_METRICS = (Return tt, cm').

(** The nodes of [l] are taken in one after the other, from [cm] to
    [cm']. *)
Inductive nodes_taken `{Env} : collected → list json → collected → Prop :=
| taken_nil cm : nodes_taken cm [] cm
| taken_cons cm node cm1 l cm2 :
    node_taken cm node cm1 → nodes_taken cm1 l cm2 →
    nodes_taken cm (node :: l) cm2.

End YarnMetrics.

(** ** Environments and inputs for the instances *)

Module Demo.
Import Cgroup Cpu CpuStat.

Definition stat_entries : list (string * Z) :=
  [("nr_periods", 5); ("nr_throttled", 2); ("throttled_time", 0)]%string.

Definition fs_stat : Fs.t :=
  {| Fs.files := {[ Fs.join Scenario.dir "cpu.stat" := stat_text stat_entries ]};
     Fs.dirs := {[ Scenario.dir ]} |}.

(** A [cpu.stat] with an empty second line. *)
Definition fs_stat_blank : Fs.t :=
  {| Fs.files :=
       {[ Fs.join Scenario.dir "cpu.stat"
          := ("a 1" +:+ String "010" (String "010" "b 2"))%string ]};
     Fs.dirs := {[ Scenario.dir ]} |}.

Definition fs_empty : Fs.t := {| Fs.files := ∅; Fs.dirs := {[ Scenario.dir ]} |}.

Definition some_ops : list limit_op :=
  [SetCores Scenario.three_and_half; Reset; SetQuota 25].

(** A network which is down, with a detection which finds an address. *)
Definition env_down : YarnConfigCollector.Env :=
  {| YarnConfigCollector.Dict := string;
     YarnConfigCollector.truthy := λ d, negb (bool_decide (d = ""%string));
     YarnConfigCollector.World := unit;
     YarnConfigCollector.request := λ _ w,
       (YarnConfigCollector.Raised YarnConfigCollector.ConnectionError, w);
     YarnConfigCollector.detect_resource_manager_address := λ w,
       (YarnConfigCollector.Return (Some "rm:8088"%string), w);
     YarnConfigCollector.get_yarn_properties := YarnConfigCollector.Return;
     YarnConfigCollector.RM_DEFAULT_ADDRESS := "localhost:8088";
     YarnConfigCollector.WORKER_ADDRESS := "localhost:8042" |}.

(** A network in which the worker answers. *)
Definition env_up : YarnConfigCollector.Env :=
  {| YarnConfigCollector.Dict := string;
     YarnConfigCollector.truthy := λ d, negb (bool_decide (d = ""%string));
     YarnConfigCollector.World := unit;
     YarnConfigCollector.request := λ url w,
       (if bool_decide (url = "http://localhost:8042/conf"%string)
        then YarnConfigCollector.Return "properties"%string
        else YarnConfigCollector.Raised YarnConfigCollector.ConnectionError,
        w);
     YarnConfigCollector.detect_resource_manager_address := λ w,
       (YarnConfigCollector.Return None, w);
     YarnConfigCollector.get_yarn_properties := YarnConfigCollector.Return;
     YarnConfigCollector.RM_DEFAULT_ADDRESS := "localhost:8088";
     YarnConfigCollector.WORKER_ADDRESS := "localhost:8042" |}.

(** A collector as [YarnConfigCollector(max_retries=n)] makes it, in the
    world [w]. *)
Definition fresh `{E : YarnConfigCollector.Env} (max_retries : Z)
    (w : YarnConfigCollector.World) : YarnConfigCollector.state :=
  {| YarnConfigCollector.self := YarnConfigCollector.init max_retries;
     YarnConfigCollector.world := w;
     YarnConfigCollector.trace := [] |}.

(** A master which has detected its address and failed once. *)
Definition detected `{E : YarnConfigCollector.Env}
    (w : YarnConfigCollector.World) : YarnConfigCollector.state :=
  {| YarnConfigCollector.self :=
       {| YarnConfigCollector.resource_manager_address := "rm:8088";
          YarnConfigCollector.is_address_detected := true;
          YarnConfigCollector.max_retries := 20;
          YarnConfigCollector.failed_connections := 1 |};
     YarnConfigCollector.world := w;
     YarnConfigCollector.trace := [] |}.

(** A worker which has failed three times. *)
Definition failed_thrice `{E : YarnConfigCollector.Env}
    (w : YarnConfigCollector.World) : YarnConfigCollector.state :=
  {| YarnConfigCollector.self :=
       {| YarnConfigCollector.resource_manager_address :=
            YarnConfigCollector.RM_DEFAULT_ADDRESS;
          YarnConfigCollector.is_address_detected := false;
          YarnConfigCollector.max_retries := 20;
          YarnConfigCollector.failed_connections := 3 |};
     YarnConfigCollector.world := w;
     YarnConfigCollector.trace := [] |}.

(** A resource manager with two nodes, the second without a host name,
    and no application. *)
Definition good_node : YarnMetrics.json :=
  YarnMetrics.JDict
    {[ "nodeHostName"%string := YarnMetrics.JStr "node-1";
       "numContainers"%string := YarnMetrics.JInt 3;
       "resourceUtilization"%string :=
         YarnMetrics.JDict {[ "nodeCPUUsage"%string := YarnMetrics.JInt 7 ]} ]}.

Definition nameless_node : gmap string YarnMetrics.json :=
  {[ "numContainers"%string := YarnMetrics.JInt 1;
     "resourceUtilization"%string :=
       YarnMetrics.JDict {[ "nodeCPUUsage"%string := YarnMetrics.JInt 9 ]} ]}.

Definition rm_env : YarnMetrics.Env :=
  {| YarnMetrics.json_request := λ url _,
       if bool_decide (url = "rm/ws/v1/cluster/nodes"%string) then
         YarnMetrics.Return
           (YarnMetrics.JDict
              {[ "nodes"%string :=
                   YarnMetrics.JDict
                     {[ "node"%string :=
                          YarnMetrics.JList
                            [good_node; YarnMetrics.JDict nameless_node;
                             good_node] ]} ]})
       else if bool_decide (url = "rm2/ws/v1/cluster/nodes"%string) then
         YarnMetrics.Return
           (YarnMetrics.JDict
              {[ "nodes"%string :=
                   YarnMetrics.JDict
                     {[ "node"%string := YarnMetrics.JList [good_node] ]} ]})
       else if bool_decide (url = "rm/ws/v1/cluster/apps"%string) then
         YarnMetrics.Return
           (YarnMetrics.JDict {[ "apps"%string := YarnMetrics.JNull ]})
       else YarnMetrics.Raised (YarnMetrics.OtherError "HTTPError");
     YarnMetrics.set_metrics_from_json := λ cm labels metrics_json _,
       (YarnMetrics.Return tt,
        cm ++ [("metric"%string, YarnMetrics.JDict labels)]) |}.

End Demo.

(** ** Notions used in the statements *)

Definition nospace (l : list ascii) : Prop :=
  Forall (λ c, Py.isspace c = false) l.

(** The value of a sequence of decimal digits, most significant first. *)
Fixpoint uint_val (acc : Z) (d : Decimal.uint) : Z :=
  match d with
  | Nil => acc
  | D0 d => uint_val (10 * acc) d
  | D1 d => uint_val (10 * acc + 1) d
  | D2 d => uint_val (10 * acc + 2) d
  | D3 d => uint_val (10 * acc + 3) d
  | D4 d => uint_val (10 * acc + 4) d
  | D5 d => uint_val (10 * acc + 5) d
  | D6 d => uint_val (10 * acc + 6) d
  | D7 d => uint_val (10 * acc + 7) d
  | D8 d => uint_val (10 * acc + 8) d
  | D9 d => uint_val (10 * acc + 9) d
  end.

(** * Properties *)

(** ** The primitives and the scenarios of the tests, evaluated *)

Example test_cpu_v1_get :
  outcome (Cpu.get_cpu_limit_cores Scenario.cpu_v1) Scenario.fs_v1
  = Py.Ok Scenario.half.
Proof. vm_compute. reflexivity. Qed.

Example test_cpu_v2_set_get :
  let m := (Cpu.set_cpu_limit_cores Scenario.cpu_v2 Scenario.three_and_half;;
            Cpu.get_cpu_limit_cores Scenario.cpu_v2) in
  outcome m Scenario.fs_v2 = Py.Ok Scenario.three_and_half
  ∧ Fs.files (final m Scenario.fs_v2) !! Fs.join Scenario.dir "cpu.max"
    = Some "350 100"%string.
Proof. vm_compute. split; reflexivity. Qed.

Example test_cgroup_v2_parent :
  let m := Subcgroup.get_subcgroup Scenario.current_leaf Scenario.root_cgroup Subcgroup.cpu
             Scenario.SUB_CGROUP_NAME in
  outcome m Scenario.fs_parent
  = Py.Ok (Cgroup.CgroupCoreV2
             (Fs.join Scenario.parent_cgroup Scenario.SUB_CGROUP_NAME)
             Scenario.root_cgroup)
  ∧ Fs.files (final m Scenario.fs_parent)
      !! Fs.join Scenario.parent_cgroup "cgroup.subtree_control"
    = Some "+cpu"%string.
Proof. vm_compute. split; reflexivity. Qed.

(** A core at the mount root whose [cgroup.controllers] names nothing. *)
Example get_subcgroup_at_root :
  Subcgroup.get_subcgroup Scenario.root_cgroup Scenario.root_cgroup
    Subcgroup.cpu Scenario.SUB_CGROUP_NAME Scenario.fs_parent
  = (Py.Raise (Py.AssertionError
                 "Controller 'cpu' is not supported under /tmp/root"),
     Scenario.fs_parent).
Proof. vm_compute. reflexivity. Qed.

Example test_cgroup_v2_unsupported :
  Subcgroup.get_subcgroup Scenario.current_leaf Scenario.root_cgroup Subcgroup.memory
    Scenario.SUB_CGROUP_NAME Scenario.fs_parent
  = (Py.Raise (Py.AssertionError
                 "Controller 'memory' is not supported under /tmp/root"),
     Scenario.fs_parent).
Proof. vm_compute. reflexivity. Qed.


(** ** Text: white space, [split], [int] and [str] *)

Section Text.

Lemma c_space_isspace c : Py.is_c_space c = true → Py.isspace c = true.
Proof.
  destruct c as [[] [] [] [] [] [] [] []]; vm_compute; congruence.
Qed.

Lemma lstrip_nospace l : nospace l → Py.lstrip l = l.
Proof.
  destruct 1 as [|c r Hc _]; simpl; [done |].
  destruct (Py.is_c_space c) eqn:E; [|done].
  apply c_space_isspace in E. congruence.
Qed.

Lemma strip_nospace l : nospace l → Py.strip l = l.
Proof.
  intros H. unfold Py.strip. rewrite (lstrip_nospace l H).
  rewrite lstrip_nospace; [apply rev_involutive |].
  by apply Forall_rev.
Qed.

Lemma split_go_nospace l cur r :
  nospace l → Py.split_go cur (l ++ r) = Py.split_go (rev l ++ cur) r.
Proof.
  intros H. revert cur. induction H as [|c l Hc _ IH]; intros cur; [done |].
  simpl. rewrite Hc, IH, <- app_assoc. done.
Qed.

Lemma chars_app (a b : string) :
  list_ascii_of_string (a +:+ b)
  = list_ascii_of_string a ++ list_ascii_of_string b.
Proof. induction a as [|c a IH]; simpl; [done | by rewrite IH]. Qed.

Lemma emit_word (a : string) k :
  a ≠ ""%string → Py.emit (rev (list_ascii_of_string a)) k = a :: k.
Proof.
  intros Ha. unfold Py.emit.
  destruct (rev (list_ascii_of_string a)) as [|c l] eqn:E.
  - apply (f_equal (@rev ascii)) in E. rewrite rev_involutive in E.
    simpl in E. by destruct a.
  - rewrite <- E, rev_involutive, string_of_list_ascii_of_string. done.
Qed.

(** Two words with one space in between split into the two words. *)
Lemma split_two (a b : string) :
  a ≠ ""%string → b ≠ ""%string →
  nospace (list_ascii_of_string a) → nospace (list_ascii_of_string b) →
  Py.split (a +:+ " " +:+ b) = [a; b].
Proof.
  intros Ha Hb Na Nb. unfold Py.split. rewrite !chars_app. simpl.
  rewrite split_go_nospace by done. simpl.
  rewrite <- (app_nil_r (list_ascii_of_string b)).
  rewrite split_go_nospace by done. simpl.
  rewrite !app_nil_r, !emit_word by done. done.
Qed.

Lemma uint_val_acc d acc :
  uint_val (Zpos acc) d = Zpos (Pos.of_uint_acc d acc).
Proof.
  revert acc. induction d; intros acc; simpl; [done | ..];
    rewrite <- IHd; f_equal; lia.
Qed.

Lemma uint_val_of_uint d : uint_val 0 d = Z.of_N (Pos.of_uint d).
Proof.
  induction d; simpl; [done | done | ..];
    by rewrite <- uint_val_acc.
Qed.

Lemma uint_val_to_uint p : uint_val 0 (Pos.to_uint p) = Zpos p.
Proof. by rewrite uint_val_of_uint, DecimalPos.Unsigned.of_to. Qed.

Lemma parse_uint_chars d acc prev :
  d ≠ Nil ∨ prev = true →
  Py.parse_digits_go acc prev (Py.uint_chars d) = Some (uint_val acc d).
Proof.
  revert acc prev.
  induction d; intros acc prev H; simpl;
    [destruct H as [H | ->]; done | ..];
    rewrite IHd by (by right); f_equal; f_equal; vm_compute (nat_of_ascii _); lia.
Qed.

Lemma uint_chars_nospace d : nospace (Py.uint_chars d).
Proof. induction d; simpl; constructor; done. Qed.

Lemma int_chars_nospace z : nospace (Py.int_chars z).
Proof.
  destruct z; simpl; [by repeat constructor | apply uint_chars_nospace |].
  constructor; [done | apply uint_chars_nospace].
Qed.

Lemma uint_chars_nonnil d : d ≠ Nil → Py.uint_chars d ≠ [].
Proof. by destruct d. Qed.

Lemma str_nonempty z : Py.str z ≠ ""%string.
Proof.
  unfold Py.str.
  destruct z as [|p|p]; simpl; [done | | done].
  pose proof (uint_chars_nonnil _ (DecimalPos.Unsigned.to_uint_nonnil p)).
  by destruct (Py.uint_chars (Pos.to_uint p)).
Qed.

Lemma str_nospace z : nospace (list_ascii_of_string (Py.str z)).
Proof.
  unfold Py.str. rewrite list_ascii_of_string_of_list_ascii.
  apply int_chars_nospace.
Qed.

(** Reading back the text of an integer gives the integer. *)
Lemma int_of_str_str z : Py.int_of_str (Py.str z) = Some z.
Proof.
  unfold Py.int_of_str, Py.str.
  rewrite list_ascii_of_string_of_list_ascii.
  rewrite strip_nospace by apply int_chars_nospace.
  destruct z as [|p|p]; simpl; [done | |].
  - pose proof (DecimalPos.Unsigned.to_uint_nonnil p) as Hn.
    transitivity (Py.parse_digits (Py.uint_chars (Pos.to_uint p))).
    { by destruct (Pos.to_uint p). }
    unfold Py.parse_digits. rewrite parse_uint_chars by (by left).
    by rewrite uint_val_to_uint.
  - pose proof (DecimalPos.Unsigned.to_uint_nonnil p) as Hn.
    unfold Py.parse_digits. rewrite parse_uint_chars by (by left).
    by rewrite uint_val_to_uint.
Qed.

Lemma int_str z : Py.int (Py.str z) = Py.Ok z.
Proof. unfold Py.int. by rewrite int_of_str_str. Qed.

Lemma str_not_max z : Py.str z ≠ "max"%string.
Proof.
  intros H. pose proof (int_of_str_str z) as E. rewrite H in E.
  vm_compute in E. done.
Qed.

End Text.

(** ** Running the methods of the CPU controller *)

Section CpuRuns.
Import Cgroup Cpu.

Lemma convert_roundtrip v :
  convert_inner_value_to_outer (convert_outer_value_to_inner v) = Py.Ok v.
Proof.
  unfold convert_outer_value_to_inner, convert_inner_value_to_outer.
  destruct (Z.eqb_spec v (-1)) as [-> | Hv]; [done |].
  rewrite decide_False by apply str_not_max. apply int_str.
Qed.

Lemma convert_nospace v :
  nospace (list_ascii_of_string (convert_outer_value_to_inner v)).
Proof.
  unfold convert_outer_value_to_inner.
  destruct (v =? -1); [by repeat constructor | apply str_nospace].
Qed.

Lemma convert_nonempty v : convert_outer_value_to_inner v ≠ ""%string.
Proof.
  unfold convert_outer_value_to_inner.
  destruct (v =? -1); [done | apply str_nonempty].
Qed.

Lemma v1_files_ne p : Fs.join p V1.CPU_PERIOD_FILE ≠ Fs.join p V1.CPU_QUOTA_FILE.
Proof. unfold Fs.join. intros H. by apply app_inv_head in H. Qed.

(** *** Version 1 *)

Lemma v1_period_run cg σ :
  V1.get_cpu_limit_period cg σ
  = (match Fs.files σ !! Fs.join (cgroup_full_path cg) V1.CPU_PERIOD_FILE with
     | Some s => Py.int s
     | None => Py.Raise (Py.FileNotFoundError
                           (Fs.join (cgroup_full_path cg) V1.CPU_PERIOD_FILE))
     end, σ).
Proof.
  unfold V1.get_cpu_limit_period, read_from_interface_file, mbind, M_bind,
    bind, lift.
  by destruct (Fs.files σ !! _).
Qed.

Lemma v1_quota_run cg σ :
  V1.get_cpu_limit_quota cg σ
  = (match Fs.files σ !! Fs.join (cgroup_full_path cg) V1.CPU_QUOTA_FILE with
     | Some s => Py.int s
     | None => Py.Raise (Py.FileNotFoundError
                           (Fs.join (cgroup_full_path cg) V1.CPU_QUOTA_FILE))
     end, σ).
Proof.
  unfold V1.get_cpu_limit_quota, read_from_interface_file, mbind, M_bind,
    bind, lift.
  by destruct (Fs.files σ !! _).
Qed.

Lemma v1_params_run cg σ p q :
  V1.get_cpu_limit_period cg σ = (Py.Ok p, σ) →
  V1.get_cpu_limit_quota cg σ = (Py.Ok q, σ) →
  V1.get_cpu_limit_params cg σ = (Py.Ok (mkParams p q), σ).
Proof.
  intros Hp Hq. unfold V1.get_cpu_limit_params, mbind, M_bind, bind.
  by rewrite Hp, Hq.
Qed.

Lemma v1_set_run cg σ q :
  V1.set_cpu_limit_quota cg q σ
  = (Py.Ok tt,
     Fs.write_text (Fs.join (cgroup_full_path cg) V1.CPU_QUOTA_FILE)
       (Py.str q) σ).
Proof. done. Qed.

(** *** Version 2 *)

(** What [get_cpu_limit_params] of version 2 makes of the text of
    [cpu.max]. *)
Lemma v2_params_run cg σ :
  V2.get_cpu_limit_params cg σ
  = (match Fs.files σ !! Fs.join (cgroup_full_path cg) V2.CPU_LIMIT_FILE with
     | None => Py.Raise (Py.FileNotFoundError
                           (Fs.join (cgroup_full_path cg) V2.CPU_LIMIT_FILE))
     | Some s =>
         match Py.split s with
         | f0 :: f1 :: _ =>
             match Py.int f1 with
             | Py.Ok p =>
                 match convert_inner_value_to_outer f0 with
                 | Py.Ok q => Py.Ok (mkParams p q)
                 | Py.Raise e => Py.Raise e
                 end
             | Py.Raise e => Py.Raise e
             end
         | _ => Py.Raise Py.IndexError
         end
     end, σ).
Proof.
  unfold V2.get_cpu_limit_params, read_from_interface_file, mbind, M_bind,
    bind, lift, V2.item.
  destruct (Fs.files σ !! _) as [s|]; simpl; [|done].
  destruct (Py.split s) as [|f0 [|f1 r]]; simpl; try done.
  destruct (Py.int f1); simpl; [|done].
  by destruct (convert_inner_value_to_outer f0).
Qed.

Lemma v2_params_pure cg σ : snd (V2.get_cpu_limit_params cg σ) = σ.
Proof. by rewrite v2_params_run. Qed.

Lemma v2_period_run cg σ :
  V2.get_cpu_limit_period cg σ
  = (match fst (V2.get_cpu_limit_params cg σ) with
     | Py.Ok ps => Py.Ok (period ps)
     | Py.Raise e => Py.Raise e
     end, σ).
Proof.
  unfold V2.get_cpu_limit_period, mbind, M_bind, bind.
  pose proof (v2_params_pure cg σ) as H.
  destruct (V2.get_cpu_limit_params cg σ) as [[ps|e] σ']; simpl in *;
    by subst.
Qed.

Lemma v2_quota_run cg σ :
  V2.get_cpu_limit_quota cg σ
  = (match fst (V2.get_cpu_limit_params cg σ) with
     | Py.Ok ps => Py.Ok (quota ps)
     | Py.Raise e => Py.Raise e
     end, σ).
Proof.
  unfold V2.get_cpu_limit_quota, mbind, M_bind, bind.
  pose proof (v2_params_pure cg σ) as H.
  destruct (V2.get_cpu_limit_params cg σ) as [[ps|e] σ']; simpl in *;
    by subst.
Qed.

(** Setting the quota: the period comes from the file, both fields are
    written. *)
Lemma v2_set_run cg σ q :
  V2.set_cpu_limit_quota cg q σ
  = match fst (V2.get_cpu_limit_period cg σ) with
    | Py.Ok p =>
        (Py.Ok tt,
         Fs.write_text (Fs.join (cgroup_full_path cg) V2.CPU_LIMIT_FILE)
           (convert_outer_value_to_inner q +:+ " " +:+ Py.str p) σ)
    | Py.Raise e => (Py.Raise e, σ)
    end.
Proof.
  unfold V2.set_cpu_limit_quota, mbind, M_bind, bind.
  rewrite v2_period_run. simpl.
  by destruct (fst (V2.get_cpu_limit_params cg σ)).
Qed.

(** After a write of [q] and [p] to [cpu.max] the parameters read back
    are [p] and [q]. *)
Lemma v2_params_after_write cg σ q p :
  V2.get_cpu_limit_params cg
    (Fs.write_text (Fs.join (cgroup_full_path cg) V2.CPU_LIMIT_FILE)
       (convert_outer_value_to_inner q +:+ " " +:+ Py.str p) σ)
  = (Py.Ok (mkParams p q),
     Fs.write_text (Fs.join (cgroup_full_path cg) V2.CPU_LIMIT_FILE)
       (convert_outer_value_to_inner q +:+ " " +:+ Py.str p) σ).
Proof.
  rewrite v2_params_run. f_equal. unfold Fs.write_text. simpl.
  rewrite lookup_insert_eq.
  rewrite split_two
    by auto using convert_nonempty, str_nonempty, convert_nospace, str_nospace.
  by rewrite int_str, convert_roundtrip.
Qed.

End CpuRuns.

(** ** The CPU limit of a cgroup of either version *)

Section CpuLimit.
Import Cgroup Cpu.

Implicit Types (cg : CgroupCore) (σ : Fs.t) (p q n : Z).

Lemma params_pure cg σ :
  snd (get_cpu_limit_params (get_cpu_controller cg) σ) = σ.
Proof.
  unfold get_cpu_controller. destruct (is_v1 cg); simpl.
  - unfold V1.get_cpu_limit_params, mbind, M_bind, bind.
    pose proof (f_equal snd (v1_period_run cg σ)) as Hp.
    destruct (V1.get_cpu_limit_period cg σ) as [[p|e] σ1]; simpl in *;
      subst σ1; [|done].
    pose proof (f_equal snd (v1_quota_run cg σ)) as Hq.
    by destruct (V1.get_cpu_limit_quota cg σ) as [[q|e] σ2].
  - apply v2_params_pure.
Qed.

Lemma period_pure cg σ :
  snd (get_cpu_limit_period (get_cpu_controller cg) σ) = σ.
Proof.
  unfold get_cpu_controller. destruct (is_v1 cg); simpl.
  - by rewrite v1_period_run.
  - by rewrite v2_period_run.
Qed.

Lemma period_run cg σ p :
  outcome (get_cpu_limit_period (get_cpu_controller cg)) σ = Py.Ok p →
  get_cpu_limit_period (get_cpu_controller cg) σ = (Py.Ok p, σ).
Proof.
  unfold outcome. intros H. pose proof (period_pure cg σ) as H'.
  destruct (get_cpu_limit_period _ σ); simpl in *. congruence.
Qed.

Lemma params_run cg σ ps :
  outcome (get_cpu_limit_params (get_cpu_controller cg)) σ = Py.Ok ps →
  get_cpu_limit_params (get_cpu_controller cg) σ = (Py.Ok ps, σ).
Proof.
  unfold outcome. intros H. pose proof (params_pure cg σ) as H'.
  destruct (get_cpu_limit_params _ σ); simpl in *. congruence.
Qed.

(** [get_cpu_limit_cores] in terms of the parameters it reads. *)
Lemma cores_run cg σ ps :
  get_cpu_limit_params (get_cpu_controller cg) σ = (Py.Ok ps, σ) →
  get_cpu_limit_cores (get_cpu_controller cg) σ
  = (if quota ps =? -1 then Py.Ok Py.minus_one
     else Py.truediv (quota ps) (period ps), σ).
Proof.
  intros H. unfold get_cpu_limit_cores, mbind, M_bind, bind. rewrite H.
  by destruct (quota ps =? -1).
Qed.

(** The quota and the period which the files hold after
    [set_cpu_limit_quota]. *)
Lemma set_quota_run cg σ p q :
  get_cpu_limit_period (get_cpu_controller cg) σ = (Py.Ok p, σ) →
  ∃ σ',
    set_cpu_limit_quota (get_cpu_controller cg) q σ = (Py.Ok tt, σ')
    ∧ get_cpu_limit_params (get_cpu_controller cg) σ'
      = (Py.Ok (mkParams p q), σ')
    ∧ get_cpu_limit_period (get_cpu_controller cg) σ' = (Py.Ok p, σ')
    ∧ get_cpu_limit_quota (get_cpu_controller cg) σ' = (Py.Ok q, σ').
Proof.
  unfold get_cpu_controller. destruct (is_v1 cg); simpl; intros Hp.
  - eexists. split; [apply v1_set_run |].
    set (σ' := Fs.write_text _ _ σ).
    assert (V1.get_cpu_limit_period cg σ' = (Py.Ok p, σ')) as Hp'.
    { rewrite v1_period_run in Hp |- *. subst σ'. unfold Fs.write_text.
      simpl. rewrite lookup_insert_ne by (symmetry; apply v1_files_ne).
      congruence. }
    assert (V1.get_cpu_limit_quota cg σ' = (Py.Ok q, σ')) as Hq'.
    { rewrite v1_quota_run. subst σ'. unfold Fs.write_text. simpl.
      by rewrite lookup_insert_eq, int_str. }
    split; [by apply v1_params_run | done].
  - eexists. split; [rewrite v2_set_run; by rewrite Hp |].
    split; [apply v2_params_after_write |].
    rewrite v2_period_run, v2_quota_run, v2_params_after_write. done.
Qed.

End CpuLimit.

(** ** The claims on the CPU controller *)

Section CpuClaims.
Import Cgroup Cpu.

Implicit Types (cg : CgroupCore) (σ : Fs.t) (p q n : Z).

(** C1. For a cgroup of either version whose limit parameters read as
    [ps], [get_cpu_limit_cores] gives the quotient [quota / period] of
    Python when the quota is not -1, and exactly [-1.0] when the quota
    is -1.  In the second case the period is not looked at: no division
    takes place, whatever the period, zero included. *)
Theorem get_cpu_limit_cores_spec cg σ ps :
  outcome (get_cpu_limit_params (get_cpu_controller cg)) σ = Py.Ok ps →
  (quota ps ≠ -1 →
   outcome (get_cpu_limit_cores (get_cpu_controller cg)) σ
   = Py.truediv (quota ps) (period ps))
  ∧ (quota ps = -1 →
     outcome (get_cpu_limit_cores (get_cpu_controller cg)) σ
     = Py.Ok Py.minus_one).
Proof.
  intros H. apply params_run in H. unfold outcome.
  rewrite (cores_run _ _ _ H). simpl. split; intros Hq.
  - by apply Z.eqb_neq in Hq as ->.
  - by rewrite Hq.
Qed.

(** C10. The only guard of the division is the test of the quota against
    -1: with a quota other than -1 and a period which reads 0,
    [get_cpu_limit_cores] raises [ZeroDivisionError]. *)
Theorem get_cpu_limit_cores_zero_period cg σ ps :
  outcome (get_cpu_limit_params (get_cpu_controller cg)) σ = Py.Ok ps →
  quota ps ≠ -1 →
  period ps = 0 →
  outcome (get_cpu_limit_cores (get_cpu_controller cg)) σ
  = Py.Raise Py.ZeroDivisionError.
Proof.
  intros H Hq Hp. apply params_run in H. unfold outcome.
  rewrite (cores_run _ _ _ H). simpl.
  apply Z.eqb_neq in Hq as ->. by rewrite Hp.
Qed.

(** C4. In a cgroup of either version whose period reads [p], after
    [set_cpu_limit_quota q] with [q] other than -1,
    [get_cpu_limit_cores] gives exactly the quotient [q / p] of
    Python. *)
Theorem set_quota_then_get_cores cg σ p q :
  outcome (get_cpu_limit_period (get_cpu_controller cg)) σ = Py.Ok p →
  q ≠ -1 →
  outcome (set_cpu_limit_quota (get_cpu_controller cg) q;;
           get_cpu_limit_cores (get_cpu_controller cg)) σ
  = Py.truediv q p.
Proof.
  intros Hp Hq. apply period_run in Hp.
  destruct (set_quota_run cg σ p q Hp) as (σ' & Hset & Hps & _).
  unfold outcome, mbind, M_bind, bind. rewrite Hset.
  rewrite (cores_run _ _ _ Hps). simpl.
  by apply Z.eqb_neq in Hq as ->.
Qed.

(** C5. [reset_cpu_limit] is [set_cpu_limit_quota (-1)] in both
    versions; in a cgroup whose period is readable,
    [get_cpu_limit_cores] gives [-1.0] afterwards, and the quota in the
    interface file reads [-1] in version 1 ([cpu.cfs_quota_us]) and
    [max] in version 2 (first field of [cpu.max]). *)
Theorem reset_cpu_limit_spec cg σ p :
  outcome (get_cpu_limit_period (get_cpu_controller cg)) σ = Py.Ok p →
  reset_cpu_limit (get_cpu_controller cg)
  = set_cpu_limit_quota (get_cpu_controller cg) (-1)
  ∧ outcome (reset_cpu_limit (get_cpu_controller cg);;
             get_cpu_limit_cores (get_cpu_controller cg)) σ
    = Py.Ok Py.minus_one
  ∧ quota_field cg (final (reset_cpu_limit (get_cpu_controller cg)) σ)
    = Some (if is_v1 cg then "-1" else "max")%string.
Proof.
  intros Hp. apply period_run in Hp. split; [done |].
  destruct (set_quota_run cg σ p (-1) Hp) as (σ' & Hset & Hps & _).
  unfold reset_cpu_limit, outcome, final, mbind, M_bind, bind.
  rewrite Hset. split.
  - by rewrite (cores_run _ _ _ Hps).
  - clear Hps. simpl. revert Hp Hset. unfold quota_field, quota_file,
      get_cpu_controller.
    destruct (is_v1 cg); simpl; intros Hp Hset.
    + rewrite v1_set_run in Hset. injection Hset as <-.
      unfold Fs.write_text. simpl. by rewrite lookup_insert_eq.
    + rewrite v2_set_run, Hp in Hset. injection Hset as <-.
      unfold Fs.write_text. cbn [Fs.files]. rewrite lookup_insert_eq.
      cbn [mbind option_bind].
      rewrite split_two
        by auto using convert_nonempty, str_nonempty, convert_nospace,
             str_nospace.
      done.
Qed.

(** C7. [set_cpu_limit_quota] changes the quota only.  The one file
    written is the file of the quota, [cpu.cfs_quota_us] in version 1 and
    [cpu.max] in version 2; all other files, [cpu.cfs_period_us] among
    them, and the directories stay as they are, and the period reads
    afterwards as it did before.  In version 2 the text written is the
    new quota followed by the period which was read from [cpu.max]
    before the write; when this read fails nothing is written. *)
Theorem set_cpu_limit_quota_frame cg σ q :
  let c := get_cpu_controller cg in
  let σ' := final (set_cpu_limit_quota c q) σ in
  outcome (get_cpu_limit_period c) σ' = outcome (get_cpu_limit_period c) σ
  ∧ Fs.dirs σ' = Fs.dirs σ
  ∧ (∀ f, f ≠ quota_file cg → Fs.files σ' !! f = Fs.files σ !! f)
  ∧ (if is_v1 cg
     then Fs.files σ' !! quota_file cg = Some (Py.str q)
          ∧ Fs.files σ' !! Fs.join (cgroup_full_path cg) V1.CPU_PERIOD_FILE
            = Fs.files σ !! Fs.join (cgroup_full_path cg) V1.CPU_PERIOD_FILE
     else match outcome (get_cpu_limit_period c) σ with
          | Py.Ok p =>
              Fs.files σ' !! quota_file cg
              = Some (convert_outer_value_to_inner q +:+ " " +:+ Py.str p)
          | Py.Raise _ => σ' = σ
          end).
Proof.
  intros c σ'. subst c σ'. unfold final, outcome, quota_file,
    get_cpu_controller.
  destruct (is_v1 cg) eqn:Ev; unfold CpuControllerV1, CpuControllerV2;
    cbn [set_cpu_limit_quota get_cpu_limit_period].
  - rewrite v1_set_run. simpl. rewrite !v1_period_run. simpl.
    rewrite lookup_insert_eq.
    rewrite lookup_insert_ne by (symmetry; apply v1_files_ne).
    repeat split; try done.
    intros f Hf. by rewrite lookup_insert_ne.
  - rewrite v2_set_run.
    destruct (V2.get_cpu_limit_period cg σ) as [[p|e] σ1] eqn:Ep;
      simpl; [|by rewrite Ep].
    pose proof (f_equal snd (v2_period_run cg σ)) as Hpure.
    rewrite Ep in Hpure. simpl in Hpure. subst σ1.
    rewrite v2_period_run, v2_params_after_write. simpl.
    rewrite lookup_insert_eq. repeat split; try done.
    intros f Hf. by rewrite lookup_insert_ne.
Qed.

End CpuClaims.

(** ** The walk of [get_subcgroup] towards the mount root *)

Section Walk.
Import Cgroup Subcgroup.

Implicit Types (σ : Fs.t) (root cur d : Fs.path) (c : ControllerType).

Lemma below_app root r x :
  below root (r ++ [x]) = below root r ++ [root ++ r ++ [x]].
Proof.
  revert root. induction r as [|y r IH]; intros root; simpl; [done |].
  rewrite IH. unfold Fs.join. by rewrite <- !app_assoc.
Qed.

Lemma supported_run σ d c :
  is_controller_supported d c σ
  = (match Fs.files σ !! Fs.join d CONTROLLERS_FILE with
     | Some s => Py.Ok (names c s)
     | None => Py.Raise (Py.FileNotFoundError (Fs.join d CONTROLLERS_FILE))
     end, σ).
Proof.
  unfold is_controller_supported, read_text, mbind, M_bind, bind.
  by destruct (Fs.files σ !! _).
Qed.

Lemma find_supported_found σ root c fuel cur s :
  Fs.files σ !! Fs.join cur CONTROLLERS_FILE = Some s →
  names c s = true →
  find_supported root c fuel cur σ = (Py.Ok cur, σ).
Proof.
  intros Hs Hn. destruct fuel; simpl; unfold mbind, M_bind, bind;
    by rewrite supported_run, Hs, Hn.
Qed.

Lemma find_supported_at_root σ root c fuel :
  unsupported σ c root →
  find_supported root c fuel root σ
  = (Py.Raise (Py.AssertionError (not_supported_msg c root)), σ).
Proof.
  intros (s & Hs & Hn). destruct fuel; simpl; unfold mbind, M_bind, bind;
    by rewrite supported_run, Hs, Hn, decide_True.
Qed.

Lemma find_supported_up σ root c fuel cur :
  unsupported σ c cur → cur ≠ root →
  find_supported root c (S fuel) cur σ
  = find_supported root c fuel (Fs.parent cur) σ.
Proof.
  intros (s & Hs & Hn) Hne. simpl. unfold mbind, M_bind, bind.
  by rewrite supported_run, Hs, Hn, decide_False.
Qed.

(** Past directories which do not support the controller the walk
    arrives at the root. *)
Lemma find_supported_climb σ root c rel fuel :
  Forall (unsupported σ c) (below root rel) →
  find_supported root c (length rel + fuel) (root ++ rel) σ
  = find_supported root c fuel root σ.
Proof.
  induction rel as [|x r IH] using rev_ind; intros H.
  - by rewrite app_nil_r.
  - rewrite below_app in H. apply Forall_app in H as [Hr Hx].
    apply Forall_inv in Hx.
    replace (length (r ++ [x]) + fuel)%nat with (S (length r + fuel))
      by (rewrite length_app; simpl; lia).
    rewrite find_supported_up; [| done |].
    + unfold Fs.parent. rewrite app_assoc, removelast_last.
      by apply IH.
    + intros E. rewrite <- (app_nil_r root) in E at 2.
      apply app_inv_head in E. by destruct r.
Qed.

Lemma parent_below root rel :
  rel ≠ [] → Fs.parent (root ++ rel) = root ++ removelast rel.
Proof. intros H. unfold Fs.parent. by apply removelast_app. Qed.

Lemma walk_start_below root rel :
  walk_start (root ++ rel) root = root ++ removelast rel.
Proof.
  unfold walk_start. destruct rel as [|x rel].
  - rewrite app_nil_r. by rewrite decide_True, app_nil_r.
  - rewrite decide_False; [by apply parent_below |].
    intros E. rewrite <- (app_nil_r root) in E at 2.
    by apply app_inv_head in E.
Qed.

Lemma delegate_run σ d c s :
  Fs.files σ !! Fs.join d SUBTREE_CONTROL_FILE = Some s →
  delegate d c σ
  = (Py.Ok tt,
     if names c s then σ
     else Fs.write_text (Fs.join d SUBTREE_CONTROL_FILE)
            (s +:+ "+" +:+ controller_name c) σ).
Proof.
  intros Hs. unfold delegate, read_text, mbind, M_bind, bind.
  rewrite Hs. simpl. by destruct (names c s).
Qed.

End Walk.

(** ** The claims on [set_cpu_limit_cores] and on the conversions *)

Section CoresClaims.
Import Cgroup Cpu.

Implicit Types (cg : CgroupCore) (σ : Fs.t) (p q n : Z).

Lemma floor_nonneg x n :
  Py.int_of_float x = Py.Ok n → Py.is_nonneg x = true → Py.floor x = Py.Ok n.
Proof.
  destruct x as [s | s | | s m e]; simpl; try done.
  destruct s; [done |]. intros H _. rewrite <- H. f_equal.
  destruct (0 <=? e) eqn:He; [done |].
  symmetry. apply Z.quot_div_nonneg; [done |].
  apply Z.pow_pos_nonneg; lia.
Qed.

(** C2, as the code has it.  [set_cpu_limit_cores c] reads the period
    [p] from the files as they are at the call and sets the quota to
    [int(p * c)]: the float product with its fraction cut off, toward
    zero.  For a product which is not negative this is its floor.  A
    following [get_cpu_limit_cores] gives the quotient of this quota by
    [p], unless the quota is -1, the mark of no limit. *)
Theorem set_cpu_limit_cores_truncates cg σ p cores x n :
  outcome (get_cpu_limit_period (get_cpu_controller cg)) σ = Py.Ok p →
  Py.mul_int_float p cores = Py.Ok x →
  Py.int_of_float x = Py.Ok n →
  let c := get_cpu_controller cg in
  let σ' := final (set_cpu_limit_cores c cores) σ in
  set_cpu_limit_cores c cores σ = set_cpu_limit_quota c n σ
  ∧ outcome (set_cpu_limit_cores c cores) σ = Py.Ok tt
  ∧ outcome (get_cpu_limit_quota c) σ' = Py.Ok n
  ∧ (Py.is_nonneg x = true → Py.floor x = Py.Ok n)
  ∧ (n ≠ -1 → outcome (get_cpu_limit_cores c) σ' = Py.truediv n p).
Proof.
  intros Hp Hx Hn c σ'. subst c σ'. apply period_run in Hp.
  destruct (set_quota_run cg σ p n Hp) as (σ' & Hset & Hps & _ & Hq).
  assert (set_cpu_limit_cores (get_cpu_controller cg) cores σ
          = set_cpu_limit_quota (get_cpu_controller cg) n σ) as E.
  { unfold set_cpu_limit_cores, mbind, M_bind, bind, lift.
    by rewrite Hp, Hx, Hn. }
  unfold outcome, final. rewrite E, Hset. simpl.
  rewrite Hq, (cores_run _ _ _ Hps). simpl.
  repeat split; try done.
  - by apply floor_nonneg.
  - intros Hne. by apply Z.eqb_neq in Hne as ->.
Qed.

(** C6, as far as it holds.  An inner value which is the literal [max]
    or the decimal text of an integer other than -1 converts to an outer
    value and back to itself; the outer value is -1 exactly for [max]. *)
Theorem convert_inner_roundtrip (x : string) :
  x = "max"%string ∨ (∃ n, n ≠ -1 ∧ x = Py.str n) →
  ∃ v, convert_inner_value_to_outer x = Py.Ok v
       ∧ convert_outer_value_to_inner v = x
       ∧ (v = -1 ↔ x = "max"%string).
Proof.
  intros [-> | (n & Hn & ->)].
  - by exists (-1).
  - exists n. unfold convert_inner_value_to_outer,
      convert_outer_value_to_inner.
    rewrite decide_False by apply str_not_max.
    apply Z.eqb_neq in Hn as Hn'. rewrite Hn'.
    split; [apply int_str |]. split; [done |].
    split; [done |]. intros H. by apply str_not_max in H.
Qed.

End CoresClaims.

(** ** The claims on the memory controller and on sub-cgroups *)

Section CoreClaims.
Import Cgroup Subcgroup.

Implicit Types (σ : Fs.t) (root : Fs.path) (c : ControllerType).

(** C8. In version 2 [get_max_usage_in_bytes] raises
    [CgroupInterfaceNotSupported] on every file system, leaves the file
    system alone and gives no value, -1 or other; in version 1 it gives
    the content of [memory.max_usage_in_bytes] read as an integer. *)
Theorem get_max_usage_in_bytes_spec (full_path root_path : Fs.path) σ :
  Memory.get_max_usage_in_bytes (CgroupCoreV2 full_path root_path) σ
  = (Py.Raise (Py.CgroupInterfaceNotSupported
       "Interface file max_usage_in_bytes is not supported in cGroup v2"),
     σ)
  ∧ (∀ n, outcome (Memory.get_max_usage_in_bytes
                      (CgroupCoreV2 full_path root_path)) σ ≠ Py.Ok n)
  ∧ Memory.get_max_usage_in_bytes (CgroupCoreV1 full_path) σ
    = (match Fs.files σ !! Fs.join full_path "memory.max_usage_in_bytes" with
       | Some s => Py.int s
       | None => Py.Raise (Py.FileNotFoundError
                   (Fs.join full_path "memory.max_usage_in_bytes"))
       end, σ).
Proof.
  split; [done |]. split; [done |].
  unfold Memory.get_max_usage_in_bytes, Memory.get_max_usage_in_bytes_v1,
    read_from_interface_file, mbind, M_bind, bind, lift. simpl.
  by destruct (Fs.files σ !! _).
Qed.

(** C9. A version 2 core at or below the mount root; every directory of
    the walk, from the parent of the core up to the mount root (the root
    alone for a core at the root), has a [cgroup.controllers] file and
    none of these names the controller.  Then [get_subcgroup] raises
    [AssertionError], the message names the controller and the root
    path, and the file system is as before: no directory is made and no
    delegation is written. *)
Theorem get_subcgroup_unsupported σ root rel c (name : string) :
  Forall (unsupported σ c) (root :: below root (removelast rel)) →
  get_subcgroup (root ++ rel) root c name σ
  = (Py.Raise (Py.AssertionError
       ("Controller '" +:+ controller_name c
        +:+ "' is not supported under " +:+ Fs.path_str root)), σ).
Proof.
  intros H. apply Forall_cons in H as [Hroot Hbelow].
  unfold get_subcgroup. rewrite walk_start_below.
  rewrite length_app, Nat.add_comm.
  unfold mbind, M_bind, bind at 1.
  rewrite find_supported_climb by done.
  by rewrite find_supported_at_root.
Qed.

(** C3, as the tests have it.  A version 2 core below the mount root;
    the root names the controller in [cgroup.controllers], the
    directories between the root and the core do not.  Then
    [get_subcgroup] delegates at the root: [+controller] is appended to
    [cgroup.subtree_control] of the root unless the controller is there
    already, and no other file changes.  The new directory is made
    directly under the root, the directory which delegates, and the core
    returned points to it. *)
Theorem get_subcgroup_fallback_to_root σ root rel c (name s0 s : string) :
  rel ≠ [] →
  Fs.files σ !! Fs.join root CONTROLLERS_FILE = Some s0 →
  names c s0 = true →
  Forall (unsupported σ c) (below root (removelast rel)) →
  Fs.files σ !! Fs.join root SUBTREE_CONTROL_FILE = Some s →
  let m := get_subcgroup (root ++ rel) root c name in
  outcome m σ = Py.Ok (CgroupCoreV2 (Fs.join root name) root)
  ∧ Fs.files (final m σ)
    = (if names c s then Fs.files σ
       else <[Fs.join root SUBTREE_CONTROL_FILE
              := s +:+ "+" +:+ controller_name c]> (Fs.files σ))
  ∧ Fs.dirs (final m σ) = {[Fs.join root name]} ∪ Fs.dirs σ.
Proof.
  intros Hrel Hs0 Hn Hbelow Hs m. subst m.
  unfold outcome, final, get_subcgroup. rewrite walk_start_below.
  rewrite length_app, Nat.add_comm.
  unfold mbind, M_bind, bind.
  rewrite find_supported_climb by done.
  rewrite (find_supported_found _ _ _ _ _ _ Hs0 Hn).
  rewrite (delegate_run _ _ _ _ Hs). unfold mkdir, ret. simpl.
  by destruct (names c s).
Qed.

End CoreClaims.

(** ** The claims at the scenarios of the tests *)

Section Instances.
Import Cgroup Cpu Subcgroup Scenario.

Example split_cpu_max : Py.split "max  100 " = ["max"; "100"]%string.
Proof. reflexivity. Qed.

Example int_underscore : Py.int " -1_0 " = Py.Ok (-10).
Proof. reflexivity. Qed.

Example truediv_minus_one : Py.truediv (-1) 1 = Py.Ok Py.minus_one.
Proof. vm_compute. reflexivity. Qed.

(** Period 100 and 3.5 cores give the quota 350. *)
Example set_cores_350 :
  Fs.files (final (set_cpu_limit_cores cpu_v1 three_and_half) fs_v1)
    !! Fs.join dir "cpu.cfs_quota_us" = Some "350"%string.
Proof. vm_compute. reflexivity. Qed.

(** Period 100 and 0.505 cores give the quota 50, not 51. *)
Example set_cores_50 :
  Fs.files (final (set_cpu_limit_cores cpu_v2 (Py.decimal 505 3)) fs_v2)
    !! Fs.join dir "cpu.max" = Some "50 100"%string.
Proof. vm_compute. reflexivity. Qed.

(** After the reset [cpu.max] reads [max 100]. *)
Example reset_v2 :
  Fs.files (final (reset_cpu_limit cpu_v2) fs_v2) !! Fs.join dir "cpu.max"
  = Some "max 100"%string.
Proof. vm_compute. reflexivity. Qed.

Lemma get_cpu_limit_cores_spec_witness :
  outcome (get_cpu_limit_cores cpu_v1) fs_v1 = Py.truediv 50 100.
Proof.
  apply (get_cpu_limit_cores_spec (CgroupCoreV1 dir) fs_v1
           (mkParams 100 50)).
  - vm_compute. reflexivity.
  - simpl. lia.
Defined.

Lemma get_cpu_limit_cores_zero_period_witness :
  outcome (get_cpu_limit_cores cpu_v1) fs_v1_zero
  = Py.Raise Py.ZeroDivisionError.
Proof.
  apply (get_cpu_limit_cores_zero_period (CgroupCoreV1 dir) fs_v1_zero
           (mkParams 0 50)).
  - vm_compute. reflexivity.
  - simpl. lia.
  - reflexivity.
Defined.

Lemma set_quota_then_get_cores_witness :
  outcome (set_cpu_limit_quota cpu_v2 350;; get_cpu_limit_cores cpu_v2) fs_v2
  = Py.truediv 350 100.
Proof.
  apply (set_quota_then_get_cores (CgroupCoreV2 dir dir) fs_v2 100 350).
  - vm_compute. reflexivity.
  - lia.
Defined.

Lemma reset_cpu_limit_spec_witness :
  outcome (reset_cpu_limit cpu_v2;; get_cpu_limit_cores cpu_v2) fs_v2
  = Py.Ok Py.minus_one
  ∧ quota_field (CgroupCoreV2 dir dir) (final (reset_cpu_limit cpu_v2) fs_v2)
    = Some "max"%string.
Proof.
  apply (reset_cpu_limit_spec (CgroupCoreV2 dir dir) fs_v2 100).
  vm_compute. reflexivity.
Defined.

Lemma set_cpu_limit_cores_truncates_witness :
  outcome (get_cpu_limit_quota cpu_v1)
    (final (set_cpu_limit_cores cpu_v1 (Py.decimal 505 3)) fs_v1)
  = Py.Ok 50.
Proof.
  refine (proj1 (proj2 (proj2
            (set_cpu_limit_cores_truncates (CgroupCoreV1 dir) fs_v1 100
               (Py.decimal 505 3) (Py.decimal 505 1) 50 _ _ _))));
    vm_compute; reflexivity.
Defined.

(** Against C2 as stated: with period 100 and -0.505 cores the product is
    -50.5, whose floor is -51, and the quota which is set is -50. *)
Lemma set_cpu_limit_cores_not_floor :
  outcome (get_cpu_limit_period cpu_v1) fs_v1 = Py.Ok 100
  ∧ Py.mul_int_float 100 (Py.decimal (-505) 3) = Py.Ok (Py.decimal (-505) 1)
  ∧ Py.floor (Py.decimal (-505) 1) = Py.Ok (-51)
  ∧ outcome (get_cpu_limit_quota cpu_v1)
      (final (set_cpu_limit_cores cpu_v1 (Py.decimal (-505) 3)) fs_v1)
    = Py.Ok (-50)
  ∧ Fs.files (final (set_cpu_limit_cores cpu_v1 (Py.decimal (-505) 3)) fs_v1)
      !! Fs.join dir "cpu.cfs_quota_us" = Some "-50"%string.
Proof. vm_compute. repeat split; reflexivity. Qed.

Lemma convert_inner_roundtrip_witness :
  ∃ v, convert_inner_value_to_outer "350" = Py.Ok v
       ∧ convert_outer_value_to_inner v = "350"%string
       ∧ (v = -1 ↔ "350"%string = "max"%string).
Proof.
  apply (convert_inner_roundtrip "350"). right. exists 350.
  split; [lia | reflexivity].
Defined.

(** Against C6 as stated: the inner value [-1] converts to the outer
    value -1, which converts back to [max]. *)
Lemma convert_roundtrip_fails_on_minus_one :
  convert_inner_value_to_outer "-1" = Py.Ok (-1)
  ∧ convert_outer_value_to_inner (-1) = "max"%string
  ∧ convert_outer_value_to_inner (-1) ≠ "-1"%string.
Proof.
  split; [vm_compute; reflexivity |]. split; [reflexivity |].
  intros H. vm_compute in H. discriminate.
Qed.

Lemma get_subcgroup_unsupported_witness :
  get_subcgroup current_leaf root_cgroup memory SUB_CGROUP_NAME fs_parent
  = (Py.Raise (Py.AssertionError
                 "Controller 'memory' is not supported under /tmp/root"),
     fs_parent).
Proof.
  apply (get_subcgroup_unsupported fs_parent root_cgroup
           ["base_controller"; "leaf"]%string memory SUB_CGROUP_NAME).
  - repeat constructor.
    + exists ""%string. split; vm_compute; reflexivity.
    + exists "cpu"%string. split; vm_compute; reflexivity.
Defined.

Lemma get_subcgroup_fallback_to_root_witness :
  let m := get_subcgroup current_leaf root_cgroup cpu SUB_CGROUP_NAME in
  outcome m fs_fallback
  = Py.Ok (CgroupCoreV2 (Fs.join root_cgroup SUB_CGROUP_NAME) root_cgroup)
  ∧ Fs.files (final m fs_fallback)
    = <[Fs.join root_cgroup SUBTREE_CONTROL_FILE := "+cpu"%string]>
        (Fs.files fs_fallback)
  ∧ Fs.dirs (final m fs_fallback)
    = {[Fs.join root_cgroup SUB_CGROUP_NAME]} ∪ Fs.dirs fs_fallback.
Proof.
  apply (get_subcgroup_fallback_to_root fs_fallback root_cgroup
           ["base_controller"; "leaf"]%string cpu SUB_CGROUP_NAME
           "cpu" "").
  - discriminate.
  - vm_compute. reflexivity.
  - vm_compute. reflexivity.
  - repeat constructor. exists ""%string. split; vm_compute; reflexivity.
  - vm_compute. reflexivity.
Defined.

(** Against C3 as stated: in the tree of
    [test_cgroup_v2_fallback_to_root] the core is
    [root/base_controller/leaf]; the core returned is [root/sub_cgroup],
    as the test asserts, and nothing is made under the path of the
    core. *)
Lemma get_subcgroup_child_not_under_core :
  let m := get_subcgroup current_leaf root_cgroup cpu SUB_CGROUP_NAME in
  outcome m fs_fallback
  = Py.Ok (CgroupCoreV2 (Fs.join root_cgroup SUB_CGROUP_NAME) root_cgroup)
  ∧ (outcome m fs_fallback
     ≠ Py.Ok (CgroupCoreV2 (Fs.join current_leaf SUB_CGROUP_NAME)
                root_cgroup))
  ∧ (Fs.join current_leaf SUB_CGROUP_NAME ∉ Fs.dirs (final m fs_fallback))
  ∧ (Fs.join root_cgroup SUB_CGROUP_NAME ∈ Fs.dirs (final m fs_fallback)).
Proof.
  intros m.
  assert (outcome m fs_fallback
          = Py.Ok (CgroupCoreV2 (Fs.join root_cgroup SUB_CGROUP_NAME)
                     root_cgroup)) as E by (vm_compute; reflexivity).
  split; [done |]. split; [rewrite E; discriminate |]. split.
  - apply (bool_decide_eq_false_1 _). vm_compute. reflexivity.
  - apply (bool_decide_eq_true_1 _). vm_compute. reflexivity.
Qed.

End Instances.

(** ** [get_stat]: the lines of [cpu.stat] *)

Section StatRuns.
Import Cgroup Cpu CpuStat.

Implicit Types (cg : CgroupCore) (σ : Fs.t) (d : gmap string Z).

Lemma linebreak_isspace c : CpuStat.is_linebreak c = true → Py.isspace c = true.
Proof.
  destruct c as [[] [] [] [] [] [] [] []]; vm_compute; congruence.
Qed.

Lemma nospace_nobreak l :
  nospace l → Forall (λ c, CpuStat.is_linebreak c = false) l.
Proof.
  intros H. eapply Forall_impl; [exact H |]. intros c Hc. simpl in Hc.
  destruct (CpuStat.is_linebreak c) eqn:E; [|done].
  apply linebreak_isspace in E. congruence.
Qed.

Lemma splitlines_go_line l cur r :
  Forall (λ c, CpuStat.is_linebreak c = false) l →
  splitlines_go cur (l ++ "010"%char :: r)
  = string_of_list_ascii (rev cur ++ l) :: splitlines_go [] r.
Proof.
  intros H. revert cur. induction H as [|c l Hc _ IH]; intros cur.
  - simpl. by rewrite app_nil_r.
  - simpl. rewrite Hc, IH. simpl. by rewrite <- app_assoc.
Qed.

Lemma stat_line_nobreak kv :
  word kv.1 →
  Forall (λ c, CpuStat.is_linebreak c = false)
    (list_ascii_of_string (stat_line kv)).
Proof.
  intros [_ Hk]. unfold stat_line. rewrite !chars_app.
  apply nospace_nobreak in Hk. apply Forall_app. split; [done |].
  simpl. constructor; [done |]. apply nospace_nobreak, str_nospace.
Qed.

Lemma splitlines_stat_text kvs :
  Forall (λ kv, word kv.1) kvs →
  splitlines (stat_text kvs) = map stat_line kvs.
Proof.
  unfold splitlines. induction 1 as [|kv kvs Hkv _ IH]; [done |].
  simpl. rewrite chars_app. simpl.
  rewrite splitlines_go_line by by apply stat_line_nobreak.
  simpl. by rewrite string_of_list_ascii_of_string, IH.
Qed.

Lemma stat_entry_line kv : word kv.1 → stat_entry (stat_line kv) = Py.Ok kv.
Proof.
  intros [Hne Hk]. unfold stat_entry, stat_line.
  rewrite split_two by auto using str_nonempty, str_nospace.
  simpl. rewrite int_str. by destruct kv.
Qed.

Lemma stat_dict_lines kvs d :
  Forall (λ kv, word kv.1) kvs →
  stat_dict (map stat_line kvs) d
  = Py.Ok (fold_left (λ d kv, <[kv.1 := kv.2]> d) kvs d).
Proof.
  intros H. revert d. induction H as [|kv kvs Hkv _ IH]; intros d; [done |].
  simpl. rewrite stat_entry_line by done. destruct kv as [k v]. apply IH.
Qed.

Lemma stat_entry_ok line :
  stat_line_ok line ↔ ∃ kv, stat_entry line = Py.Ok kv.
Proof.
  unfold stat_line_ok, stat_entry, item. split.
  - intros (k & f1 & rest & v & -> & Hv). simpl. rewrite Hv. eauto.
  - intros [kv H]. destruct (Py.split line) as [|k [|f1 rest]]; simpl in H;
      try done.
    destruct (Py.int f1) as [v|e] eqn:Hv; [|done]. eauto 10.
Qed.

Lemma stat_dict_ok lines d :
  (∃ d', stat_dict lines d = Py.Ok d') ↔ Forall stat_line_ok lines.
Proof.
  revert d. induction lines as [|line lines IH]; intros d; simpl.
  - split; eauto.
  - rewrite Forall_cons, stat_entry_ok. split.
    + intros [d' H]. destruct (stat_entry line) as [[k v]|e]; [|done].
      split; [eauto | apply (IH (<[k:=v]> d)); eauto].
    + intros [[[k v] ->] H]. by apply IH.
Qed.

Lemma stat_dict_short pre line post d :
  Forall stat_line_ok pre →
  (length (Py.split line) < 2)%nat →
  stat_dict (pre ++ line :: post) d = Py.Raise Py.IndexError.
Proof.
  intros H Hl. revert d. induction H as [|l pre Hok _ IH]; intros d; simpl.
  - unfold stat_entry, item.
    destruct (Py.split line) as [|k [|f1 rest]]; simpl in *; try done. lia.
  - apply stat_entry_ok in Hok as [[k v] ->]. apply IH.
Qed.

Lemma get_stat_run cg σ :
  get_stat (get_cpu_controller cg) σ
  = (match Fs.files σ !! Fs.join (cgroup_full_path cg) CPU_STAT_FILE with
     | Some s => stat_dict (splitlines s) ∅
     | None => Py.Raise (Py.FileNotFoundError
                           (Fs.join (cgroup_full_path cg) CPU_STAT_FILE))
     end, σ).
Proof.
  unfold get_stat, read_from_interface_file, mbind, M_bind, bind, lift.
  replace (cgroup (get_cpu_controller cg)) with cg
    by (unfold get_cpu_controller; by destruct (is_v1 cg)).
  by destruct (Fs.files σ !! _).
Qed.

End StatRuns.

(** ** Further properties of the CPU controller *)

Section CpuMore.
Import Cgroup Cpu CpuStat.

Implicit Types (cg : CgroupCore) (σ : Fs.t) (p q n : Z).

Lemma quota_pure cg σ :
  snd (get_cpu_limit_quota (get_cpu_controller cg) σ) = σ.
Proof.
  unfold get_cpu_controller. destruct (is_v1 cg); simpl.
  - by rewrite v1_quota_run.
  - by rewrite v2_quota_run.
Qed.

Lemma cores_pure cg σ :
  snd (get_cpu_limit_cores (get_cpu_controller cg) σ) = σ.
Proof.
  unfold get_cpu_limit_cores, mbind, M_bind, bind.
  pose proof (params_pure cg σ) as H.
  destruct (get_cpu_limit_params _ σ) as [[ps|e] σ1]; simpl in *; subst σ1;
    [|done].
  by destruct (quota ps =? -1).
Qed.

Lemma set_cores_run cg σ p x :
  get_cpu_limit_period (get_cpu_controller cg) σ = (Py.Ok p, σ) →
  set_cpu_limit_cores (get_cpu_controller cg) x σ
  = match asked p (SetCores x) with
    | Py.Ok n => set_cpu_limit_quota (get_cpu_controller cg) n σ
    | Py.Raise e => (Py.Raise e, σ)
    end.
Proof.
  intros Hp. unfold set_cpu_limit_cores, mbind, M_bind, bind, lift.
  rewrite Hp. simpl. destruct (Py.mul_int_float p x) as [y|e]; [|done].
  by destruct (Py.int_of_float y).
Qed.

Lemma holds_params cg σ p q :
  holds cg σ p q →
  get_cpu_limit_params (get_cpu_controller cg) σ = (Py.Ok (mkParams p q), σ).
Proof.
  unfold holds, get_cpu_controller. destruct (is_v1 cg); simpl.
  - intros [Hp Hq]. apply v1_params_run.
    + by rewrite v1_period_run, Hp, int_str.
    + by rewrite v1_quota_run, Hq, int_str.
  - intros H. rewrite v2_params_run, H.
    rewrite split_two
      by auto using convert_nonempty, str_nonempty, convert_nospace,
           str_nospace.
    by rewrite int_str, convert_roundtrip.
Qed.

Lemma holds_period cg σ p q :
  holds cg σ p q →
  get_cpu_limit_period (get_cpu_controller cg) σ = (Py.Ok p, σ).
Proof.
  intros H. pose proof (holds_params _ _ _ _ H) as Hps. revert H Hps.
  unfold holds, get_cpu_controller. destruct (is_v1 cg); simpl.
  - intros [Hp _] _. by rewrite v1_period_run, Hp, int_str.
  - intros _ Hps. by rewrite v2_period_run, Hps.
Qed.

Lemma holds_set cg σ p q q' :
  holds cg σ p q →
  ∃ σ', set_cpu_limit_quota (get_cpu_controller cg) q' σ = (Py.Ok tt, σ')
        ∧ holds cg σ' p q'.
Proof.
  intros H. pose proof (holds_period _ _ _ _ H) as Hp. revert H Hp.
  unfold holds, get_cpu_controller.
  destruct (is_v1 cg); unfold CpuControllerV1, CpuControllerV2;
    cbn [set_cpu_limit_quota get_cpu_limit_period].
  - intros [Hp Hq] _. eexists. split; [apply v1_set_run |].
    unfold Fs.write_text. cbn [Fs.files]. split.
    + by rewrite lookup_insert_ne by (symmetry; apply v1_files_ne).
    + by rewrite lookup_insert_eq.
  - intros _ Hp. eexists. split; [by rewrite v2_set_run, Hp |].
    unfold Fs.write_text. cbn [Fs.files]. by rewrite lookup_insert_eq.
Qed.

(** A sequence of operations on files which hold [p] and [q]: it ends as
    [asked_last] tells, with files which hold the period and the last
    quota, or raises the same exception. *)
Lemma holds_run_ops cg σ p q os :
  holds cg σ p q →
  match asked_last p q os with
  | Py.Ok q' =>
      ∃ σ', run_ops (get_cpu_controller cg) os σ = (Py.Ok tt, σ')
            ∧ holds cg σ' p q'
  | Py.Raise e =>
      ∃ σ', run_ops (get_cpu_controller cg) os σ = (Py.Raise e, σ')
  end.
Proof.
  revert σ q. induction os as [|o os IH]; intros σ q H; simpl.
  - by exists σ.
  - assert (match asked p o with
            | Py.Ok q' =>
                ∃ σ', run_op (get_cpu_controller cg) o σ = (Py.Ok tt, σ')
                      ∧ holds cg σ' p q'
            | Py.Raise e =>
                run_op (get_cpu_controller cg) o σ = (Py.Raise e, σ)
            end) as Ho.
    { destruct o as [q1 | x |]; simpl.
      - by apply holds_set with q.
      - rewrite (set_cores_run _ _ _ _ (holds_period _ _ _ _ H)). simpl.
        destruct (Py.mul_int_float p x) as [y|e]; [|done].
        destruct (Py.int_of_float y) as [n|e]; [|done].
        by apply holds_set with q.
      - by apply holds_set with q. }
    unfold mbind, M_bind, bind.
    destruct (asked p o) as [q'|e].
    + destruct Ho as (σ' & -> & H'). apply (IH σ' q' H').
    + rewrite Ho. eauto.
Qed.

End CpuMore.

(** ** White space at the end of an interface file *)

Section Newline.

Lemma lstrip_snoc l c :
  Py.is_c_space c = true →
  Py.lstrip (l ++ [c])
  = match Py.lstrip l with [] => [] | _ => Py.lstrip l ++ [c] end.
Proof.
  intros Hc. induction l as [|a l IH]; simpl; [by rewrite Hc |].
  destruct (Py.is_c_space a); [done |]. done.
Qed.

Lemma strip_snoc l c :
  Py.is_c_space c = true → Py.strip (l ++ [c]) = Py.strip l.
Proof.
  intros Hc. unfold Py.strip. rewrite lstrip_snoc by done.
  destruct (Py.lstrip l) as [|a r] eqn:E; [done |].
  rewrite rev_app_distr. simpl. by rewrite Hc.
Qed.

Lemma split_go_snoc l cur c :
  Py.isspace c = true → Py.split_go cur (l ++ [c]) = Py.split_go cur l.
Proof.
  intros Hc. revert cur. induction l as [|a l IH]; intros cur; simpl.
  - rewrite Hc. by destruct cur.
  - rewrite !IH. done.
Qed.

Lemma int_newline s : Py.int (s +:+ String "010" "") = Py.int s.
Proof.
  unfold Py.int, Py.int_of_str. rewrite chars_app. simpl.
  by rewrite strip_snoc.
Qed.

Lemma split_newline s : Py.split (s +:+ String "010" "") = Py.split s.
Proof. unfold Py.split. rewrite chars_app. simpl. by apply split_go_snoc. Qed.

End Newline.

(** ** What else the code of the CPU controller shows *)

Section CpuExtras.
Import Cgroup Cpu CpuStat.

Implicit Types (cg : CgroupCore) (σ : Fs.t) (p q n : Z).

(** X1. [get_stat] reads back what was written line by line: for a
    [cpu.stat] with one line [key value] per entry, the keys being words,
    the result is the dict of the entries, the last entry of a key which
    comes more than once. *)
Theorem get_stat_stat_text cg σ kvs :
  Fs.files σ !! Fs.join (cgroup_full_path cg) CPU_STAT_FILE
  = Some (stat_text kvs) →
  Forall (λ kv, word kv.1) kvs →
  outcome (get_stat (get_cpu_controller cg)) σ = Py.Ok (list_to_map (rev kvs)).
Proof.
  intros Hs Hk. unfold outcome. rewrite get_stat_run, Hs. simpl.
  rewrite splitlines_stat_text, stat_dict_lines by done. f_equal.
  unfold list_to_map. by rewrite fold_left_rev_right.
Qed.

(** X2. [get_stat] returns a dict exactly when [cpu.stat] exists and each
    of its lines, as [splitlines] cuts them, has two fields at least of
    which the second is an integer; fields after the second are
    ignored. *)
Theorem get_stat_ok_iff cg σ :
  (∃ d, outcome (get_stat (get_cpu_controller cg)) σ = Py.Ok d)
  ↔ ∃ s, Fs.files σ !! Fs.join (cgroup_full_path cg) CPU_STAT_FILE = Some s
         ∧ Forall stat_line_ok (splitlines s).
Proof.
  unfold outcome. rewrite get_stat_run. simpl.
  destruct (Fs.files σ !! _) as [s|].
  - rewrite stat_dict_ok. split; [eauto |]. by intros (s' & [= <-] & H).
  - split; [by intros [d H] | by intros (s & H & _)].
Qed.

(** X3. A line of [cpu.stat] with fewer than two fields, an empty line
    for one, makes [get_stat] raise [IndexError] when the lines before it
    are in order. *)
Theorem get_stat_short_line cg σ s pre line post :
  Fs.files σ !! Fs.join (cgroup_full_path cg) CPU_STAT_FILE = Some s →
  splitlines s = pre ++ line :: post →
  Forall stat_line_ok pre →
  (length (Py.split line) < 2)%nat →
  outcome (get_stat (get_cpu_controller cg)) σ = Py.Raise Py.IndexError.
Proof.
  intros Hs Hl Hpre Hline. unfold outcome. rewrite get_stat_run, Hs, Hl.
  simpl. by apply stat_dict_short.
Qed.

(** X4. The methods which read, [get_cpu_limit_period],
    [get_cpu_limit_quota], [get_cpu_limit_params], [get_cpu_limit_cores]
    and [get_stat], leave the file system as it is, in both versions and
    also when they raise. *)
Theorem getters_read_only cg σ :
  let c := get_cpu_controller cg in
  final (get_cpu_limit_period c) σ = σ
  ∧ final (get_cpu_limit_quota c) σ = σ
  ∧ final (get_cpu_limit_params c) σ = σ
  ∧ final (get_cpu_limit_cores c) σ = σ
  ∧ final (get_stat c) σ = σ.
Proof.
  unfold final. repeat split.
  - apply period_pure.
  - apply quota_pure.
  - apply params_pure.
  - apply cores_pure.
  - by rewrite get_stat_run.
Qed.

(** X5. The three readers of the limit agree: [get_cpu_limit_params]
    gives [ps] exactly when [get_cpu_limit_period] gives its period and
    [get_cpu_limit_quota] its quota.  In version 2 all three read
    [cpu.max] whole, so that none of them works when one field is bad. *)
Theorem params_iff_period_quota cg σ ps :
  let c := get_cpu_controller cg in
  (outcome (get_cpu_limit_params c) σ = Py.Ok ps
   ↔ outcome (get_cpu_limit_period c) σ = Py.Ok (period ps)
     ∧ outcome (get_cpu_limit_quota c) σ = Py.Ok (quota ps))
  ∧ (is_v1 cg = false →
     ((∃ p, outcome (get_cpu_limit_period c) σ = Py.Ok p)
      ↔ (∃ q, outcome (get_cpu_limit_quota c) σ = Py.Ok q))).
Proof.
  unfold outcome, get_cpu_controller. destruct (is_v1 cg); simpl.
  - split; [|done].
    unfold V1.get_cpu_limit_params, mbind, M_bind, bind.
    pose proof (f_equal snd (v1_period_run cg σ)) as Hp.
    destruct (V1.get_cpu_limit_period cg σ) as [[p|e] σ1]; simpl in *;
      subst σ1; [|by split; [|intros []]].
    destruct (V1.get_cpu_limit_quota cg σ) as [[q|e] σ2]; simpl;
      [|by split; [|intros []]].
    destruct ps as [p' q']. simpl. split; [by intros [= -> ->] |].
    by intros [[= ->] [= ->]].
  - rewrite v2_period_run, v2_quota_run. simpl.
    destruct (fst (V2.get_cpu_limit_params cg σ)) as [[p q]|e]; simpl.
    + split; [|intros _; split; eauto].
      destruct ps as [p' q']. simpl. split; [by intros [= -> ->] |].
      by intros [[= ->] [= ->]].
    + split; [by split; [|intros []] |].
      intros _. split; by intros [? ?].
Qed.

(** X6. In version 2 [set_cpu_limit_quota] parses the whole of [cpu.max]
    before it writes: when [get_cpu_limit_params] raises, for a file
    which is missing, has fewer than two fields, or has a bad period or a
    bad quota field, it raises the same exception and writes nothing,
    though the old quota is of no use to it; otherwise it is the one write
    of the new quota and the period just read. *)
Theorem set_cpu_limit_quota_v2_outcome (path root : Fs.path) σ q :
  let cg := CgroupCoreV2 path root in
  let c := get_cpu_controller cg in
  match outcome (get_cpu_limit_params c) σ with
  | Py.Raise e => set_cpu_limit_quota c q σ = (Py.Raise e, σ)
  | Py.Ok ps =>
      set_cpu_limit_quota c q σ
      = write_to_interface_file cg V2.CPU_LIMIT_FILE
          (convert_outer_value_to_inner q +:+ " " +:+ Py.str (period ps)) σ
  end.
Proof.
  unfold outcome, get_cpu_controller, CpuControllerV2.
  cbn [is_v1 set_cpu_limit_quota get_cpu_limit_params].
  rewrite v2_set_run, v2_period_run. cbn [fst].
  by destruct (fst (V2.get_cpu_limit_params (CgroupCoreV2 path root) σ)).
Qed.

(** X7. [set_cpu_limit_cores] raises without a write when the period
    cannot be read or when [int(period * cores)] cannot be computed: the
    exception is the one of the read or of the computation, and the file
    system is as before. *)
Theorem set_cpu_limit_cores_raises_before_write cg σ cores e :
  let c := get_cpu_controller cg in
  (outcome (get_cpu_limit_period c) σ = Py.Raise e
   ∨ ∃ p, outcome (get_cpu_limit_period c) σ = Py.Ok p
          ∧ asked p (SetCores cores) = Py.Raise e) →
  set_cpu_limit_cores c cores σ = (Py.Raise e, σ).
Proof.
  intros c. subst c. intros [H | (p & Hp & Ha)].
  - unfold outcome in H. pose proof (period_pure cg σ) as Hpure.
    unfold set_cpu_limit_cores, mbind, M_bind, bind.
    destruct (get_cpu_limit_period (get_cpu_controller cg) σ) as [r σ1].
    simpl in *. by subst.
  - apply period_run in Hp. by rewrite (set_cores_run _ _ _ _ Hp), Ha.
Qed.

(** X8. The last quota wins: [set_cpu_limit_quota q1] followed by
    [set_cpu_limit_quota q2] has the outcome and leaves the files of
    [set_cpu_limit_quota q2] alone. *)
Theorem set_cpu_limit_quota_twice cg σ q1 q2 :
  let c := get_cpu_controller cg in
  (set_cpu_limit_quota c q1;; set_cpu_limit_quota c q2) σ
  = set_cpu_limit_quota c q2 σ.
Proof.
  unfold get_cpu_controller. destruct (is_v1 cg);
    unfold CpuControllerV1, CpuControllerV2, mbind, M_bind, bind;
    cbn [set_cpu_limit_quota].
  - rewrite !v1_set_run. f_equal. unfold Fs.write_text. cbn [Fs.files Fs.dirs].
    by rewrite insert_insert_eq.
  - rewrite (v2_set_run cg σ q1), (v2_set_run cg σ q2).
    destruct (V2.get_cpu_limit_period cg σ) as [[p|e] σ1] eqn:Hp; simpl;
      [|done].
    rewrite v2_set_run, v2_period_run, v2_params_after_write. simpl.
    f_equal. unfold Fs.write_text. cbn [Fs.files Fs.dirs].
    by rewrite insert_insert_eq.
Qed.

(** X9. Cores which are not a finite number, NaN or an infinity, never get
    to the files: with a readable period [set_cpu_limit_cores] raises
    [ValueError] or [OverflowError] and writes nothing. *)
Theorem set_cpu_limit_cores_not_finite cg σ p cores :
  outcome (get_cpu_limit_period (get_cpu_controller cg)) σ = Py.Ok p →
  (cores = S754_nan ∨ ∃ s, cores = S754_infinity s) →
  ∃ e, set_cpu_limit_cores (get_cpu_controller cg) cores σ = (Py.Raise e, σ)
       ∧ (e = Py.ValueError ∨ e = Py.OverflowError).
Proof.
  intros Hp Hc. apply period_run in Hp. rewrite (set_cores_run _ _ _ _ Hp).
  simpl. unfold Py.mul_int_float, Py.float_of_int, Py.finite_or_overflow.
  destruct (binary_normalize Py.prec Py.emax p 0 false) as [s'|s'| |s' m e];
    destruct Hc as [-> | [s ->]]; simpl; eauto.
Qed.

(** X10. Files which hold a period [p] and a quota [q] in the text of the
    controller keep doing so under any sequence of limit operations: the
    parameters read afterwards are [p] and the quota the last operation
    asked for, and the first operation whose quota cannot be computed
    raises its exception. *)
Theorem limit_ops_params cg σ p q os :
  holds cg σ p q →
  let c := get_cpu_controller cg in
  outcome (run_ops c os;; get_cpu_limit_params c) σ
  = match asked_last p q os with
    | Py.Ok q' => Py.Ok (mkParams p q')
    | Py.Raise e => Py.Raise e
    end.
Proof.
  intros H c. subst c. pose proof (holds_run_ops cg σ p q os H) as Hr.
  unfold outcome, mbind, M_bind, bind.
  destruct (asked_last p q os) as [q'|e].
  - destruct Hr as (σ' & -> & H'). by rewrite (holds_params _ _ _ _ H').
  - by destruct Hr as (σ' & ->).
Qed.

(** X11. The two versions cannot be told apart through the controller: a
    version 1 cgroup and a version 2 cgroup which hold the same period and
    quota give the same outcome of [get_cpu_limit_cores] after the same
    sequence of limit operations. *)
Theorem versions_agree (path1 path2 root2 : Fs.path) σ1 σ2 p q os :
  holds (CgroupCoreV1 path1) σ1 p q →
  holds (CgroupCoreV2 path2 root2) σ2 p q →
  let c1 := get_cpu_controller (CgroupCoreV1 path1) in
  let c2 := get_cpu_controller (CgroupCoreV2 path2 root2) in
  outcome (run_ops c1 os;; get_cpu_limit_cores c1) σ1
  = outcome (run_ops c2 os;; get_cpu_limit_cores c2) σ2.
Proof.
  intros H1 H2 c1 c2. subst c1 c2.
  pose proof (holds_run_ops _ σ1 p q os H1) as Hr1.
  pose proof (holds_run_ops _ σ2 p q os H2) as Hr2.
  unfold outcome, mbind, M_bind, bind.
  destruct (asked_last p q os) as [q'|e].
  - destruct Hr1 as (σ1' & -> & H1'). destruct Hr2 as (σ2' & -> & H2').
    by rewrite (cores_run _ _ _ (holds_params _ _ _ _ H1')),
      (cores_run _ _ _ (holds_params _ _ _ _ H2')).
  - destruct Hr1 as (σ1' & ->). by destruct Hr2 as (σ2' & ->).
Qed.

(** X12. A line feed at the end of the interface files, as the kernel
    prints them, changes nothing for the readers of the limit: the outcome
    of [get_cpu_limit_params] and of [get_cpu_limit_cores] is the one
    without it. *)
Theorem trailing_newline_harmless cg σ :
  let c := get_cpu_controller cg in
  outcome (get_cpu_limit_params c) (with_newlines σ)
  = outcome (get_cpu_limit_params c) σ
  ∧ outcome (get_cpu_limit_cores c) (with_newlines σ)
    = outcome (get_cpu_limit_cores c) σ.
Proof.
  assert (outcome (get_cpu_limit_params (get_cpu_controller cg))
            (with_newlines σ)
          = outcome (get_cpu_limit_params (get_cpu_controller cg)) σ) as E.
  { unfold outcome, get_cpu_controller. destruct (is_v1 cg); simpl.
    - unfold V1.get_cpu_limit_params, mbind, M_bind, bind.
      rewrite !v1_period_run, !v1_quota_run. unfold with_newlines.
      cbn [Fs.files]. rewrite !lookup_fmap.
      destruct (Fs.files σ !! Fs.join _ V1.CPU_PERIOD_FILE) as [sp|]; simpl;
        [|done].
      rewrite int_newline. destruct (Py.int sp); simpl; [|done].
      destruct (Fs.files σ !! Fs.join _ V1.CPU_QUOTA_FILE) as [sq|]; simpl;
        [|done].
      rewrite int_newline. by destruct (Py.int sq).
    - rewrite !v2_params_run. unfold with_newlines. cbn [Fs.files fst].
      rewrite lookup_fmap.
      destruct (Fs.files σ !! _) as [s|]; simpl; [|done].
      by rewrite split_newline. }
  split; [done |].
  unfold outcome in *. unfold get_cpu_limit_cores, mbind, M_bind, bind.
  pose proof (params_pure cg σ) as H1.
  pose proof (params_pure cg (with_newlines σ)) as H2.
  destruct (get_cpu_limit_params _ σ) as [r1 σ1].
  destruct (get_cpu_limit_params _ (with_newlines σ)) as [r2 σ2].
  simpl in *. subst. destruct r1 as [ps|e]; [|done].
  by destruct (quota ps =? -1).
Qed.

End CpuExtras.

(** ** The collector of the YARN configuration *)

Section Collector.
Import YarnConfigCollector.
Context `{E : Env}.

Implicit Types (st : state) (c : collector).

Ltac run_c :=
  unfold collect, _get_master_config, _get_worker_config, _fetch,
    properties_if_any, try_except, count_failure, call_request, call_detect,
    log, emit, get_self, set_self, lift_outcome, c_raise,
    mbind, C_bind, c_bind, mret, C_ret, c_ret in *; simpl in *.

Ltac split_env1 :=
  match goal with
  | |- context [detect_resource_manager_address ?w] =>
      destruct (detect_resource_manager_address w) as [[[[]|]|[]] ?]
  | |- context [get_yarn_properties ?d] =>
      destruct (get_yarn_properties d) as [?|[]]
  | |- context [truthy ?d] => destruct (truthy d) eqn:?
  | |- context [is_address_detected ?c] =>
      destruct (is_address_detected c) eqn:?
  | |- context [if ?b then _ else _] => destruct b eqn:?
  end.

Ltac split_req1 :=
  match goal with
  | |- context [request ?u ?w] => destruct (request u w) as [[?|[]] ?]
  end.

Ltac split_c := repeat (first [split_req1 | split_env1]; simpl in *).

Lemma collect_tripped is_master st :
  max_retries (self st) ≤ failed_connections (self st) →
  collect is_master st = (Raised (retries_exceeded (self st)), st).
Proof.
  intros H. run_c.
  destruct (Z.geb_spec (failed_connections (self st)) (max_retries (self st)));
    [done | lia].
Qed.

Lemma collect_step is_master st :
  step_ok (self st) (self (snd (collect is_master st))).
Proof.
  unfold step_ok. run_c.
  destruct (failed_connections (self st) >=? max_retries (self st));
    [simpl; auto |].
  destruct is_master; split_c; auto 10; try (split; [done|]; split; [auto|]; congruence).
Qed.

Lemma collect_step_bound is_master st :
  0 ≤ failed_connections (self st) ≤ max_retries (self st) →
  0 ≤ failed_connections (self (snd (collect is_master st)))
    ≤ max_retries (self (snd (collect is_master st))).
Proof.
  intros H.
  destruct (Z.le_gt_cases (max_retries (self st)) (failed_connections (self st)))
    as [Ht | Hlt].
  - rewrite collect_tripped by done. done.
  - destruct (collect_step is_master st) as (Hm & Hf & _). lia.
Qed.

Lemma collect_down is_master st :
  network_down →
  failed_connections (self st) < max_retries (self st) →
  failed_connections (self (snd (collect is_master st)))
  = failed_connections (self st) + 1
  ∧ max_retries (self (snd (collect is_master st))) = max_retries (self st)
  ∧ no_config (fst (collect is_master st)).
Proof.
  intros Hdown Hlt. unfold no_config. run_c.
  destruct (Z.geb_spec (failed_connections (self st)) (max_retries (self st)));
    [lia |].
  destruct is_master;
    repeat (first
      [ match goal with
        | |- context [request ?u ?w] =>
            let H := fresh in
            pose proof (Hdown u w) as H;
            destruct (request u w) as [? ?]; simpl in H; subst
        end
      | split_env1 ]; simpl in *); done.
Qed.

Lemma collect_each_app nodes more st :
  collect_each (nodes ++ more) st
  = (fst (collect_each nodes st)
     ++ fst (collect_each more (snd (collect_each nodes st))),
     snd (collect_each more (snd (collect_each nodes st)))).
Proof.
  revert st. induction nodes as [|b nodes IH]; intros st; simpl.
  - by destruct (collect_each more st).
  - destruct (collect b st) as [r st']. rewrite IH.
    destruct (collect_each nodes st') as [rs st'']. simpl.
    by destruct (collect_each more st'').
Qed.

Lemma collect_each_tripped nodes st :
  max_retries (self st) ≤ failed_connections (self st) →
  collect_each nodes st
  = (map (λ _, Raised (retries_exceeded (self st))) nodes, st).
Proof.
  intros H. induction nodes as [|b nodes IH]; simpl; [done |].
  rewrite collect_tripped by done. by rewrite IH.
Qed.

Lemma collect_each_down nodes st :
  network_down →
  failed_connections (self st) + Z.of_nat (length nodes)
  ≤ max_retries (self st) →
  failed_connections (self (snd (collect_each nodes st)))
  = failed_connections (self st) + Z.of_nat (length nodes)
  ∧ max_retries (self (snd (collect_each nodes st))) = max_retries (self st)
  ∧ Forall no_config (fst (collect_each nodes st)).
Proof.
  intros Hdown. revert st. induction nodes as [|b nodes IH]; intros st H.
  - simpl. split; [lia | done].
  - simpl in *.
    destruct (collect_down b st Hdown) as (Hf & Hm & Hn); [lia |].
    destruct (collect b st) as [r st']. simpl in *.
    destruct (IH st') as (Hf' & Hm' & Hn'); [lia |].
    destruct (collect_each nodes st') as [rs st'']. simpl in *.
    split; [lia |]. split; [congruence |]. by constructor.
Qed.

(** X13. The URL which [_fetch] asks for starts with [http]: a URL which
    does so already is taken as it is, any other gets [http://] in front;
    doing this twice changes nothing more. *)
Theorem fetch_url_http (url : string) :
  String.prefix "http" (fetch_url url) = true
  ∧ fetch_url (fetch_url url) = fetch_url url
  ∧ (String.prefix "http" url = true → fetch_url url = url)
  ∧ (String.prefix "http" url = false → fetch_url url = "http://" +:+ url).
Proof.
  unfold fetch_url. destruct (String.prefix "http" url) eqn:Hp.
  - by rewrite Hp.
  - done.
Qed.

(** X14. A collector whose count of failed connections has reached
    [max_retries] is out of use for good: every later [collect], for a
    master or a worker, raises [MaximumRetriesExceeded] with the maximum,
    makes no request, logs nothing and changes no field. *)
Theorem collect_each_exceeded nodes st :
  max_retries (self st) ≤ failed_connections (self st) →
  collect_each nodes st
  = (map (λ _, Raised (MaximumRetriesExceeded
                         "maximum number of failed connections reached"
                         (max_retries (self st)))) nodes, st).
Proof. apply collect_each_tripped. Qed.

(** X15. Over any sequence of [collect] calls, in any environment,
    [max_retries] stays as it is, a count of failed connections between 0
    and [max_retries] stays between them, and an address which has been
    detected stays detected and is kept. *)
Theorem collect_each_invariant nodes st :
  let c := self st in
  let c' := self (snd (collect_each nodes st)) in
  max_retries c' = max_retries c
  ∧ (0 ≤ failed_connections c ≤ max_retries c →
     0 ≤ failed_connections c' ≤ max_retries c')
  ∧ (is_address_detected c = true →
     is_address_detected c' = true
     ∧ resource_manager_address c' = resource_manager_address c).
Proof.
  revert st. induction nodes as [|b nodes IH]; intros st; simpl; [done |].
  pose proof (collect_step b st) as (Hm & _ & Hd).
  pose proof (collect_step_bound b st) as Hb.
  destruct (collect b st) as [r st']. simpl in *.
  specialize (IH st'). destruct (collect_each nodes st') as [rs st''].
  simpl in *. destruct IH as (IHm & IHb & IHd).
  split; [congruence |]. split; [auto |].
  intros H. destruct (Hd H) as [H1 H2]. destruct (IHd H1). split; congruence.
Qed.

(** X16. A [collect] which returns a configuration has reset the count of
    failed connections to 0, and the configuration is a true value: an
    empty configuration is never returned. *)
Theorem collect_success_resets is_master st cfg :
  fst (collect is_master st) = Return (Some cfg) →
  failed_connections (self (snd (collect is_master st))) = 0
  ∧ truthy (config cfg) = true.
Proof.
  run_c.
  destruct (failed_connections (self st) >=? max_retries (self st));
    [done |].
  destruct is_master; split_c; try done; intros [= <-]; simpl in *;
    try congruence; auto.
Qed.

(** X17. With the network down, [max_retries] calls of [collect] on a
    fresh count use up the retries: none of them returns a configuration,
    each counts one failure, and every call after them raises
    [MaximumRetriesExceeded]. *)
Theorem collect_each_network_down nodes more st :
  network_down →
  failed_connections (self st) = 0 →
  max_retries (self st) = Z.of_nat (length nodes) →
  ∃ rs st',
    collect_each (nodes ++ more) st
    = (rs ++ map (λ _, Raised (retries_exceeded (self st'))) more, st')
    ∧ Forall no_config rs
    ∧ length rs = length nodes
    ∧ failed_connections (self st') = max_retries (self st)
    ∧ max_retries (self st') = max_retries (self st).
Proof.
  intros Hdown H0 Hmax.
  destruct (collect_each_down nodes st Hdown) as (Hf & Hm & Hn); [lia |].
  rewrite collect_each_app.
  assert (length (fst (collect_each nodes st)) = length nodes) as Hlen.
  { clear. revert st. induction nodes as [|b nodes IH]; intros st; [done |].
    simpl. destruct (collect b st) as [r st']. specialize (IH st').
    destruct (collect_each nodes st'). simpl in *. by rewrite IH. }
  destruct (collect_each nodes st) as [rs st']. simpl in *.
  rewrite collect_each_tripped by lia.
  exists rs, st'. repeat split; try done; lia.
Qed.

(** X18. On a master whose address has been detected, a request which
    raises [ConnectionError] makes [collect] return [None]: the failure is
    counted, there is no new detection and no second request, and two
    errors are logged. *)
Theorem collect_master_detected st w' :
  is_address_detected (self st) = true →
  failed_connections (self st) < max_retries (self st) →
  request (fetch_url (resource_manager_address (self st) +:+ "/conf"))
    (world st) = (Raised ConnectionError, w') →
  collect true st
  = (Return None,
     {| self := {| resource_manager_address :=
                     resource_manager_address (self st);
                   is_address_detected := true;
                   max_retries := max_retries (self st);
                   failed_connections := failed_connections (self st) + 1 |};
        world := w';
        trace :=
          trace st ++
          [ Log DEBUG ("fetching " +:+ fetch_url
                         (resource_manager_address (self st) +:+ "/conf"));
            Request (fetch_url (resource_manager_address (self st) +:+ "/conf"));
            Log ERROR ("could not connect to "
                       +:+ resource_manager_address (self st));
            Log ERROR "failed to collect node config" ] |}).
Proof.
  intros Hd Hlt Hr. run_c.
  destruct (Z.geb_spec (failed_connections (self st)) (max_retries (self st)));
    [lia |].
  rewrite Hr. simpl. rewrite Hd. simpl.
  by rewrite <- !app_assoc.
Qed.

(** X19. On a master without a detected address, when the first request
    raises [ConnectionError] and the detection gives an address, an
    exception of the request to this address is not caught, a
    [ConnectionError] neither: [collect] raises it.  The failure has been
    counted once and the new address is kept as detected. *)
Theorem collect_master_second_request_raises st w1 w2 w3 a0 a e :
  is_address_detected (self st) = false →
  failed_connections (self st) < max_retries (self st) →
  request (fetch_url (resource_manager_address (self st) +:+ "/conf"))
    (world st) = (Raised ConnectionError, w1) →
  detect_resource_manager_address w1 = (Return (Some (String a0 a)), w2) →
  request (fetch_url (String a0 a +:+ "/conf")) w2 = (Raised e, w3) →
  fst (collect true st) = Raised e
  ∧ self (snd (collect true st))
    = {| resource_manager_address := String a0 a;
         is_address_detected := true;
         max_retries := max_retries (self st);
         failed_connections := failed_connections (self st) + 1 |}.
Proof.
  intros Hd Hlt Hr1 Hdet Hr2. run_c.
  destruct (Z.geb_spec (failed_connections (self st)) (max_retries (self st)));
    [lia |].
  rewrite Hr1. simpl. rewrite Hd. simpl. rewrite Hdet. simpl.
  rewrite Hr2. by destruct e.
Qed.

End Collector.

(** ** The YARN metrics *)

Section Metrics.
Import YarnMetrics.
Context `{E : Env}.

Implicit Types (cm : collected) (d ru : gmap string json).

Lemma update_from_union d ru : update_from d (JDict ru) = Return (ru ∪ d).
Proof.
  unfold update_from. f_equal.
  apply (map_fold_weak_ind (λ r m, r = m ∪ d)).
  - by rewrite (left_id_L ∅ (∪)).
  - intros k x m r Hk ->. by rewrite insert_union_l.
Qed.

Lemma node_step_taken cm node cm' :
  node_taken cm node cm' → node_step cm node = (Return tt, cm').
Proof.
  intros (d & ru & h & -> & Hru & Hh & Hset). unfold node_step, get.
  rewrite Hru, update_from_union. unfold getitem. by rewrite Hh.
Qed.

Lemma node_loop_taken cm l cm' rest :
  nodes_taken cm l cm' → node_loop cm (l ++ rest) = node_loop cm' rest.
Proof.
  induction 1 as [|cm node cm1 l cm2 Hn _ IH]; [done |].
  simpl. by rewrite (node_step_taken _ _ _ Hn).
Qed.

(** X20. [apps] and [nodes] on a response which is a dict: without the
    key [apps] (or [nodes]) the result is the empty list; with the key
    bound to a value which is not a dict, [null] for one, the call raises
    [AttributeError]; with a dict it is the entry [app] (or [node]) of the
    dict, the empty list when there is none. *)
Theorem apps_nodes_of_response (rm : ResourceManagerAPI) kw1 kw2 d1 d2 :
  json_request (_apps_url rm) kw1 = Return (JDict d1) →
  json_request (_nodes_url rm) kw2 = Return (JDict d2) →
  apps rm kw1
  = match d1 !! "apps"%string with
    | None => Return (JList [])
    | Some (JDict a) => Return (default (JList []) (a !! "app"%string))
    | Some _ => Raised AttributeError
    end
  ∧ nodes rm kw2
    = match d2 !! "nodes"%string with
      | None => Return (JList [])
      | Some (JDict a) => Return (default (JList []) (a !! "node"%string))
      | Some _ => Raised AttributeError
      end.
Proof.
  intros H1 H2. unfold apps, nodes, mbind, outcome_bind. rewrite H1, H2.
  simpl. split.
  - by destruct (d1 !! "apps"%string) as [[]|].
  - by destruct (d2 !! "nodes"%string) as [[]|].
Qed.

(** X21. The first node without a host name ends [_nodes_metrics]: a
    dict whose [resourceUtilization], if any, is a dict, and which has no
    [nodeHostName], of its own or among the entries of its
    [resourceUtilization].  The metrics of the nodes before it are kept,
    the nodes after it are not looked at, and one message goes to the
    log. *)
Theorem nodes_metrics_stops (rm : ResourceManagerAPI) cm log pre d ru post cm1 :
  nodes rm [("states", "RUNNING")]%string
  = Return (JList (pre ++ JDict d :: post)) →
  nodes_taken cm pre cm1 →
  default (JDict ∅) (d !! "resourceUtilization"%string) = JDict ru →
  (ru ∪ d) !! "nodeHostName"%string = None →
  _nodes_metrics rm (cm, log)
  = (cm1, log ++ ["Could not gather yarn nodes metrics"%string]).
Proof.
  intros Hn Hpre Hru Hh. unfold _nodes_metrics. rewrite Hn. simpl.
  rewrite (node_loop_taken _ _ _ _ Hpre). simpl.
  unfold node_step, get. rewrite Hru.
  rewrite (update_from_union d ru). unfold getitem.
  by rewrite Hh.
Qed.

(** X22. When every node is taken in, [_nodes_metrics] ends with the
    metrics which [set_metrics_from_json] made node after node and logs
    nothing.  The dict given on for a node is the node with the entries of
    its [resourceUtilization] on top, and the label [node_hostname] is the
    [nodeHostName] of this dict. *)
Theorem nodes_metrics_all (rm : ResourceManagerAPI) cm log l cm' :
  nodes rm [("states", "RUNNING")]%string = Return (JList l) →
  nodes_taken cm l cm' →
  _nodes_metrics rm (cm, log) = (cm', log).
Proof.
  intros Hn Hl. unfold _nodes_metrics. rewrite Hn. simpl.
  rewrite <- (app_nil_r l), (node_loop_taken _ _ _ _ Hl). done.
Qed.

(** X23. A failure of the cluster metrics does not stop the node
    metrics: when the request for the cluster metrics raises, [collect]
    logs it and yields the metrics of the nodes all the same. *)
Theorem collect_cluster_failure (rm_address : string) e l cm' :
  metrics (new_api rm_address) [] = Raised e →
  nodes (new_api rm_address) [("states", "RUNNING")]%string
  = Return (JList l) →
  nodes_taken [] l cm' →
  collect rm_address
  = (cm'.*2, ["Could not gather yarn cluster metrics"%string]).
Proof.
  intros Hm Hn Hl. unfold collect, _cluster_metrics, _nodes_metrics.
  rewrite Hm. simpl. rewrite Hn. simpl.
  rewrite <- (app_nil_r l), (node_loop_taken _ _ _ _ Hl). done.
Qed.

End Metrics.

(** ** The further properties at concrete inputs *)

Section MoreInstances.
Import Cgroup Cpu CpuStat Scenario Demo.

Lemma get_stat_stat_text_witness :
  outcome (get_stat cpu_v1) fs_stat = Py.Ok (list_to_map (rev stat_entries)).
Proof.
  apply (get_stat_stat_text (CgroupCoreV1 dir) fs_stat stat_entries).
  - vm_compute. reflexivity.
  - repeat constructor; simpl; discriminate.
Defined.

Lemma get_stat_short_line_witness :
  outcome (get_stat cpu_v2) fs_stat_blank = Py.Raise Py.IndexError.
Proof.
  apply (get_stat_short_line (CgroupCoreV2 dir dir) fs_stat_blank
           ("a 1" +:+ String "010" (String "010" "b 2"))
           ["a 1"%string] ""%string ["b 2"%string]).
  - vm_compute. reflexivity.
  - vm_compute. reflexivity.
  - constructor; [|constructor].
    exists "a"%string, "1"%string, [], 1. split; vm_compute; reflexivity.
  - simpl. lia.
Defined.

Lemma set_cpu_limit_cores_raises_before_write_witness :
  set_cpu_limit_cores cpu_v1 three_and_half fs_empty
  = (Py.Raise (Py.FileNotFoundError (Fs.join dir "cpu.cfs_period_us")),
     fs_empty).
Proof.
  apply (set_cpu_limit_cores_raises_before_write (CgroupCoreV1 dir) fs_empty
           three_and_half
           (Py.FileNotFoundError (Fs.join dir "cpu.cfs_period_us"))).
  left. vm_compute. reflexivity.
Defined.

Lemma set_cpu_limit_cores_not_finite_witness :
  ∃ e, set_cpu_limit_cores cpu_v1 S754_nan fs_v1 = (Py.Raise e, fs_v1)
       ∧ (e = Py.ValueError ∨ e = Py.OverflowError).
Proof.
  apply (set_cpu_limit_cores_not_finite (CgroupCoreV1 dir) fs_v1 100 S754_nan).
  - vm_compute. reflexivity.
  - left. reflexivity.
Defined.

Lemma holds_fs_v1 : holds (CgroupCoreV1 dir) fs_v1 100 50.
Proof. split; vm_compute; reflexivity. Defined.

Lemma holds_fs_v2 : holds (CgroupCoreV2 dir dir) fs_v2 100 50.
Proof. vm_compute. reflexivity. Defined.

Lemma limit_ops_params_witness :
  outcome (run_ops cpu_v2 some_ops;; get_cpu_limit_params cpu_v2) fs_v2
  = Py.Ok (mkParams 100 25).
Proof.
  exact (limit_ops_params (CgroupCoreV2 dir dir) fs_v2 100 50 some_ops
           holds_fs_v2).
Defined.

Lemma versions_agree_witness :
  outcome (run_ops cpu_v1 some_ops;; get_cpu_limit_cores cpu_v1) fs_v1
  = outcome (run_ops cpu_v2 some_ops;; get_cpu_limit_cores cpu_v2) fs_v2.
Proof.
  exact (versions_agree dir dir dir fs_v1 fs_v2 100 50 some_ops
           holds_fs_v1 holds_fs_v2).
Defined.

End MoreInstances.

Section CollectorInstances.
Import YarnConfigCollector Demo.

Lemma collect_each_exceeded_witness :
  @collect_each env_down [true; false] (@fresh env_down 0 tt)
  = ([Raised (MaximumRetriesExceeded
                "maximum number of failed connections reached" 0);
      Raised (MaximumRetriesExceeded
                "maximum number of failed connections reached" 0)],
     @fresh env_down 0 tt).
Proof.
  apply (@collect_each_exceeded env_down [true; false] (@fresh env_down 0 tt)).
  simpl. lia.
Defined.

Lemma collect_success_resets_witness :
  failed_connections (self (@failed_thrice env_up tt)) = 3
  ∧ failed_connections
      (self (snd (@collect env_up false (@failed_thrice env_up tt)))) = 0
  ∧ @truthy env_up "properties"%string = true.
Proof.
  split; [reflexivity |].
  apply (@collect_success_resets env_up false (@failed_thrice env_up tt)
           (@mkYarnConfig env_up "properties"%string)).
  vm_compute. reflexivity.
Defined.

Lemma collect_each_network_down_witness :
  ∃ rs st',
    @collect_each env_down ([true; false] ++ [false]) (@fresh env_down 2 tt)
    = (rs ++ map (λ _, Raised (retries_exceeded (self st'))) [false], st')
    ∧ Forall no_config rs
    ∧ length rs = length [true; false]
    ∧ failed_connections (self st') = max_retries (self (@fresh env_down 2 tt))
    ∧ max_retries (self st') = max_retries (self (@fresh env_down 2 tt)).
Proof.
  apply (@collect_each_network_down env_down [true; false] [false]
           (@fresh env_down 2 tt)).
  - intros url w. reflexivity.
  - reflexivity.
  - reflexivity.
Defined.

Lemma collect_master_detected_witness :
  fst (@collect env_down true (@detected env_down tt)) = Return None.
Proof.
  rewrite (@collect_master_detected env_down (@detected env_down tt) tt).
  - reflexivity.
  - reflexivity.
  - simpl. lia.
  - reflexivity.
Defined.

Lemma collect_master_second_request_raises_witness :
  fst (@collect env_down true (@fresh env_down 20 tt)) = Raised ConnectionError
  ∧ self (snd (@collect env_down true (@fresh env_down 20 tt)))
    = {| resource_manager_address := "rm:8088";
         is_address_detected := true;
         max_retries := 20;
         failed_connections := 1 |}.
Proof.
  apply (@collect_master_second_request_raises env_down (@fresh env_down 20 tt)
           tt tt tt "r"%char "m:8088"%string ConnectionError).
  - reflexivity.
  - simpl. lia.
  - reflexivity.
  - reflexivity.
  - reflexivity.
Defined.

End CollectorInstances.

Section MetricsInstances.
Import YarnMetrics Demo.

Lemma good_node_taken cm :
  @node_taken rm_env cm good_node
    (cm ++ [("metric"%string,
             JDict {[ "node_hostname"%string := JStr "node-1" ]})]).
Proof.
  exists {[ "nodeHostName"%string := JStr "node-1";
            "numContainers"%string := JInt 3;
            "resourceUtilization"%string :=
              JDict {[ "nodeCPUUsage"%string := JInt 7 ]} ]},
    {[ "nodeCPUUsage"%string := JInt 7 ]}, (JStr "node-1").
  repeat split; vm_compute; reflexivity.
Defined.

Lemma apps_nodes_of_response_witness :
  @apps rm_env (new_api "rm") [] = Raised AttributeError.
Proof.
  refine (proj1 (@apps_nodes_of_response rm_env (new_api "rm") [] []
                   {[ "apps"%string := JNull ]}
                   {[ "nodes"%string :=
                        JDict {[ "node"%string :=
                                   JList [good_node; JDict nameless_node;
                                          good_node] ]} ]} _ _));
    vm_compute; reflexivity.
Defined.

Lemma nodes_metrics_stops_witness :
  @_nodes_metrics rm_env (new_api "rm") ([], [])
  = ([("metric"%string, JDict {[ "node_hostname"%string := JStr "node-1" ]})],
     ["Could not gather yarn nodes metrics"%string]).
Proof.
  apply (@nodes_metrics_stops rm_env (new_api "rm") [] [] [good_node]
           nameless_node {[ "nodeCPUUsage"%string := JInt 9 ]} [good_node]).
  - vm_compute. reflexivity.
  - eapply taken_cons; [apply (good_node_taken []) | apply taken_nil].
  - vm_compute. reflexivity.
  - vm_compute. reflexivity.
Defined.

Lemma nodes_metrics_all_witness :
  @_nodes_metrics rm_env (new_api "rm2") ([], [])
  = ([("metric"%string, JDict {[ "node_hostname"%string := JStr "node-1" ]})],
     []).
Proof.
  apply (@nodes_metrics_all rm_env (new_api "rm2") [] [] [good_node]).
  - vm_compute. reflexivity.
  - eapply taken_cons; [apply (good_node_taken []) | apply taken_nil].
Defined.

Lemma collect_cluster_failure_witness :
  @collect rm_env "rm2"
  = ([JDict {[ "node_hostname"%string := JStr "node-1" ]}],
     ["Could not gather yarn cluster metrics"%string]).
Proof.
  apply (@collect_cluster_failure rm_env "rm2" (OtherError "HTTPError")
           [good_node]
           [("metric"%string,
             JDict {[ "node_hostname"%string := JStr "node-1" ]})]).
  - vm_compute. reflexivity.
  - vm_compute. reflexivity.
  - eapply taken_cons; [apply (good_node_taken []) | apply taken_nil].
Defined.

End MetricsInstances.
